(** * Referenced schema objects and their delta commands

    A shallow embedding of [edb/schema/referencing.py]: the commands that
    create, alter, rebase, rename and delete objects which live inside a
    referrer (a property of a type, a constraint of a property), and the
    propagation of those commands along the referrer's inheritance.

    Python objects are schema object ids, a schema is a finite map from
    ids to field records, a command is a record with nested commands, the
    command context is a record with a stack of frames, and a method that
    may raise returns a [Result].  Methods that mutate [self] return the
    updated command next to the new schema. *)

From stdpp Require Import gmap strings list.

Set Warnings "-register-all".

(** ** Exceptions and results *)

(** A raised Python exception: the name of its class, its message and the
    [details] keyword of the [edb.errors] classes. *)
Record Exception := mkExc {
  exc_class : string;
  exc_msg : string;
  exc_details : option string
}.

Inductive Result (A : Type) : Type :=
| Ok (a : A)
| Raise (e : Exception).
Arguments Ok {A} a.
Arguments Raise {A} e.

#[global] Instance Result_ret : MRet Result := fun A a => Ok a.
#[global] Instance Result_bind : MBind Result := fun A B f m =>
  match m with
  | Ok a => f a
  | Raise e => Raise e
  end.

Definition RuntimeError (msg : string) : Exception := mkExc "RuntimeError" msg None.
Definition TypeError (msg : string) : Exception := mkExc "TypeError" msg None.
Definition AssertionError : Exception := mkExc "AssertionError" EmptyString None.
Definition AttributeError (msg : string) : Exception := mkExc "AttributeError" msg None.
Definition SchemaError (msg : string) (details : option string) : Exception :=
  mkExc "SchemaError" msg details.
Definition SchemaDefinitionError (msg : string) (details : option string) : Exception :=
  mkExc "SchemaDefinitionError" msg details.
Definition InvalidDefinitionError (msg : string) : Exception :=
  mkExc "InvalidDefinitionError" msg None.

(** [sep.join(l)] *)
Fixpoint join (sep : string) (l : list string) : string :=
  match l with
  | [] => EmptyString
  | [x] => x
  | x :: rest => x +:+ sep +:+ join sep rest
  end.

(** ** Names, classes, schema objects *)

(** A Python class outside this module is known by its name. *)
Definition PyClass := string.

(** [sn.Name(name=..., module=...)] *)
Record Name := mkName { n_module : string; n_name : string }.

#[global] Instance Name_eq_dec : EqDecision Name.
Proof. solve_decision. Defined.

(** The string value of a name, [module::name]. *)
Definition name_str (n : Name) : string := n_module n +:+ "::" +:+ n_name n.

(** A schema object is its id. *)
Definition Obj := positive.

(** A field value of an object or an attribute value of a command. *)
Inductive Value :=
| VBool (b : bool)
| VName (n : Name)
| VObj (o : Obj)
| VShell (n : Name) (schemaclass : PyClass)
| VObjList (l : list Obj)
| VColl (items : list (string * Obj)).

(** Modelled from the spec: the schema store, [a persistent key/value
    mapping from object id to field values] (edb/schema/schema.py and
    objects.py are outside this module).  The fields this module reads
    through typed getters are record fields; the others ([refdict.attr]
    collections and [refdict.backref_attr] back links) are in [od_fields].
    A collection is an ordered mapping from refname to ref. *)
Record ObjData := mkObjData {
  od_type : PyClass;
  od_name : Name;
  od_bases : list Obj;
  od_is_owned : bool;
  od_is_final : bool;
  od_is_derived : bool;
  od_fields : gmap string Value
}.

Abbreviation Schema := (gmap positive ObjData).

Definition type_of (schema : Schema) (o : Obj) : PyClass :=
  from_option od_type EmptyString (schema !! o).
Definition get_name (schema : Schema) (o : Obj) : Name :=
  from_option od_name (mkName EmptyString EmptyString) (schema !! o).
Definition get_bases (schema : Schema) (o : Obj) : list Obj :=
  from_option od_bases [] (schema !! o).
Definition get_is_owned (schema : Schema) (o : Obj) : bool :=
  from_option od_is_owned false (schema !! o).
Definition get_is_final (schema : Schema) (o : Obj) : bool :=
  from_option od_is_final false (schema !! o).
Definition get_is_derived (schema : Schema) (o : Obj) : bool :=
  from_option od_is_derived false (schema !! o).
Definition get_field_value (schema : Schema) (o : Obj) (field : string) : option Value :=
  schema !! o ≫= fun d => od_fields d !! field.

(** [obj.get_field_value(schema, attr)] read as an object collection. *)
Definition get_field_coll (schema : Schema) (o : Obj) (field : string) : list (string * Obj) :=
  match get_field_value schema o field with
  | Some (VColl items) => items
  | _ => []
  end.

(** [coll.get(schema, key, default=None)] *)
Fixpoint coll_get (coll : list (string * Obj)) (key : string) : option Obj :=
  match coll with
  | [] => None
  | (k, o) :: rest => if String.eqb k key then Some o else coll_get rest key
  end.

(** [coll.objects(schema)] *)
Definition coll_objects (coll : list (string * Obj)) : list Obj := map snd coll.

(** [so.RefDict] *)
Record RefDict := mkRefDict {
  rd_attr : string;
  rd_backref_attr : string;
  rd_requires_explicit_overloaded : bool
}.

(** ** Commands and the command context *)

Inductive CmdKind :=
| DeltaRoot
| CreateObject
| AlterObject
| DeleteObject
| RenameObject
| RebaseInheritingObject
| AlterOwned.

#[global] Instance CmdKind_eq_dec : EqDecision CmdKind.
Proof. solve_decision. Defined.

(** Modelled from the spec: [get_command_class_or_die(kind, cls) → cmd_cls];
    the command class registered for a command kind and a schema class is
    the pair of the two. *)
Record CmdClass := mkCmdClass { cc_kind : CmdKind; cc_mcls : PyClass }.

#[global] Instance CmdClass_eq_dec : EqDecision CmdClass.
Proof. solve_decision. Defined.

Definition get_command_class_or_die (kind : CmdKind) (mcls : PyClass) : CmdClass :=
  mkCmdClass kind mcls.

(** A command: its class, [classname], the attribute values assigned with
    [set_attribute_value], the struct fields this module declares or
    passes, and the nested commands added with [add]. *)
Inductive Command := mkCommand {
  cmd_class : CmdClass;
  classname : Name;
  attrs : gmap string Value;
  if_exists : bool;
  if_not_exists : bool;
  ref_op_propagated : bool;
  implicit : bool;
  added_bases : list Name;
  removed_bases : list Name;
  ops : list Command
}.

(** [cls(classname=name)] *)
Definition new_command (cls : CmdClass) (name : Name) : Command :=
  mkCommand cls name ∅ false false false false [] [] [].

Definition get_schema_metaclass (cmd : Command) : PyClass := cc_mcls (cmd_class cmd).

Definition get_attribute_value (cmd : Command) (attr : string) : option Value :=
  attrs cmd !! attr.

Definition set_attribute_value (cmd : Command) (attr : string) (v : Value) : Command :=
  mkCommand (cmd_class cmd) (classname cmd) (<[attr := v]> (attrs cmd))
    (if_exists cmd) (if_not_exists cmd) (ref_op_propagated cmd) (implicit cmd)
    (added_bases cmd) (removed_bases cmd) (ops cmd).

(** [cmd.add(sub)] *)
Definition add (cmd sub : Command) : Command :=
  mkCommand (cmd_class cmd) (classname cmd) (attrs cmd)
    (if_exists cmd) (if_not_exists cmd) (ref_op_propagated cmd) (implicit cmd)
    (added_bases cmd) (removed_bases cmd) (ops cmd ++ [sub]).

Definition set_if_exists (cmd : Command) (b : bool) : Command :=
  mkCommand (cmd_class cmd) (classname cmd) (attrs cmd)
    b (if_not_exists cmd) (ref_op_propagated cmd) (implicit cmd)
    (added_bases cmd) (removed_bases cmd) (ops cmd).

Definition set_if_not_exists (cmd : Command) (b : bool) : Command :=
  mkCommand (cmd_class cmd) (classname cmd) (attrs cmd)
    (if_exists cmd) b (ref_op_propagated cmd) (implicit cmd)
    (added_bases cmd) (removed_bases cmd) (ops cmd).

Definition set_ref_op_propagated (cmd : Command) (b : bool) : Command :=
  mkCommand (cmd_class cmd) (classname cmd) (attrs cmd)
    (if_exists cmd) (if_not_exists cmd) b (implicit cmd)
    (added_bases cmd) (removed_bases cmd) (ops cmd).

(** The keyword arguments [implicit=], [added_bases=], [removed_bases=]. *)
Definition set_rebase_fields (cmd : Command) (imp : bool) (added removed : list Name) : Command :=
  mkCommand (cmd_class cmd) (classname cmd) (attrs cmd)
    (if_exists cmd) (if_not_exists cmd) (ref_op_propagated cmd) imp
    added removed (ops cmd).

(** The truth value Python gives an attribute value ([None] is false). *)
Definition truthy (v : option Value) : bool :=
  match v with
  | None => false
  | Some (VBool b) => b
  | Some (VObjList l) => negb (bool_decide (l = []))
  | Some (VColl l) => negb (bool_decide (l = []))
  | Some _ => true
  end.

(** A frame of the context stack: the class of the frame, the command it
    was opened for, and the object that command works on ([ctx.scls], which
    is also [ctx.op.scls] while the command is applied). *)
Record Frame := mkFrame {
  f_class : PyClass;
  f_op : Command;
  f_scls : Obj
}.

(** [sd.CommandContext]: [stack] grows at its end, so the innermost frame
    is the last one.  The [DeltaRootContext] token at the bottom of the
    stack is kept apart in [root]: it has no [scls] and is an instance of
    none of the classes this module searches the stack for. *)
Record CommandContext := mkContext {
  root : option Command;
  stack : list Frame;
  modaliases : list (string * string);
  canonical : bool;
  declarative : bool;
  descriptive_mode : bool;
  enable_recursion : bool;
  disable_dep_verification : bool;
  renamed_objs : gset positive
}.

Definition push_frame (context : CommandContext) (f : Frame) : CommandContext :=
  mkContext (root context) (stack context ++ [f]) (modaliases context) (canonical context)
    (declarative context) (descriptive_mode context) (enable_recursion context)
    (disable_dep_verification context) (renamed_objs context).

(** An AST object reference, [qlast.ObjectRef(name=..., module=...)]. *)
Record ObjectRef := mkObjectRef { or_name : string; or_module : option string }.

(** ** The collaborators outside this module

    The name utilities ([edb/schema/name.py]), the class registry and the
    class hierarchy, the traversal utilities, the schema store's mutators
    and the generic command framework ([edb/schema/delta.py],
    [inheriting.py]) are not part of this module.  What this module calls
    of them is collected in one interface; every theorem holds for every
    implementation of it. *)
Class Env := {
  (* name utilities *)
  get_specialized_name : Name -> Name -> list string -> string;
  shortname_from_fullname : Name -> Name;
  is_qualified : string -> bool;
  Name_of_str : string -> Name;
  (* class hierarchy *)
  referrer_context_class : CmdClass -> option PyClass;
  get_context_class : CmdClass -> PyClass;
  issubclass_ctx : PyClass -> PyClass -> bool;
  issubclass_cmd : CmdClass -> CmdClass -> bool;
  issubclass_cmd_of : CmdClass -> PyClass -> bool;
  issubclass_obj : PyClass -> PyClass -> bool;
  repr_cls : CmdClass -> string;
  (* the qualifier hooks of the command classes that override them *)
  classname_quals_from_ast_of :
    CmdClass ->
    option (Schema -> ObjectRef -> Name -> Name -> CommandContext -> list string);
  classname_quals_from_name_of : CmdClass -> option (Name -> list string);
  (* class registry *)
  get_refdict_for_class : PyClass -> PyClass -> RefDict;
  get_refdicts : PyClass -> list RefDict;
  get_key_for_name : PyClass -> string -> Schema -> Name -> string;
  get_key_for : PyClass -> string -> Schema -> Obj -> string;
  get_default_base_name : PyClass -> option Name;
  get_schema_class_displayname : PyClass -> string;
  (* objects and traversal *)
  generic : Schema -> Obj -> bool;
  get_subject : Schema -> Obj -> option Obj;
  get_shortname : Schema -> Obj -> Name;
  get_verbosename : Schema -> Obj -> bool -> string;
  children : Schema -> Obj -> list Obj;
  ordered_descendants : Schema -> Obj -> list Obj;
  allow_ref_propagation : Schema -> CommandContext -> RefDict -> Obj -> bool;
  (* schema store *)
  add_classref : Obj -> Schema -> string -> Obj -> Schema;
  del_classref : Obj -> Schema -> string -> string -> Schema;
  (* command framework *)
  cmd_apply : Command -> Schema -> CommandContext -> Result Schema;
  in_deletion : CommandContext -> nat -> bool;
  inherit_fields :
    Command -> Schema -> CommandContext -> list Obj -> bool -> Result (Schema * Command);
  super_classname_from_ast : CmdClass -> Schema -> ObjectRef -> CommandContext -> Name;
  ast_to_object_shell : ObjectRef -> list (string * string) -> Schema -> PyClass -> Name;
  super_create_begin : Command -> Schema -> CommandContext -> Result (Schema * Command * Obj);
  super_create_innards : Command -> Schema -> CommandContext -> Result (Schema * Command);
  super_alter_begin : Command -> Obj -> Schema -> CommandContext -> Result (Schema * Command);
  super_rename_begin : Command -> Obj -> Schema -> CommandContext -> Result (Schema * Command);
  _rename_cmd_from_ast : CmdClass -> Schema -> ObjectRef -> CommandContext -> Command;
  _get_command_stack : Obj -> Schema -> CommandContext -> CmdKind -> Command * Command
}.

Section Referencing.

Context `{Env}.

(** [obj.get_referrer(schema)] *)
Definition get_referrer (schema : Schema) (o : Obj) : option Obj :=
  get_subject schema o.

(** [ReferencedInheritingObject.get_implicit_bases] *)
Definition get_implicit_bases (schema : Schema) (o : Obj) : list Obj :=
  filter (fun b => generic schema b = false) (get_bases schema o).

(** Modelled from the spec: [obj.init_delta_command(schema, cmdtype)], the
    command of the kind [cmdtype] registered for the object's class, named
    after the object. *)
Definition init_delta_command (schema : Schema) (o : Obj) (kind : CmdKind) : Command :=
  new_command (get_command_class_or_die kind (type_of schema o)) (get_name schema o).

(** Modelled from the spec: [cmd.new_context(schema, context, scls)] opens
    a frame of the command's context class on top of the stack; the flags
    of the context are shared by all frames. *)
Definition new_context (cmd : Command) (context : CommandContext) (scls : Obj)
  : CommandContext :=
  push_frame context (mkFrame (get_context_class (cmd_class cmd)) cmd scls).

(** Modelled from the spec: [context.get(ctxcls)] finds [the innermost
    frame of a given referrer-command type]. *)
Definition context_get (context : CommandContext) (ctxcls : PyClass) : option Frame :=
  find (fun f => issubclass_ctx (f_class f) ctxcls) (rev (stack context)).

(** ** ReferencedObjectCommandBase *)

Definition get_referrer_context_class (cls : CmdClass) : Result PyClass :=
  match referrer_context_class cls with
  | None => Raise (TypeError ("referrer_context_class is not defined for " +:+ repr_cls cls))
  | Some c => Ok c
  end.

Definition get_referrer_context (cls : CmdClass) (context : CommandContext)
  : Result (option Frame) :=
  ctxcls ← get_referrer_context_class cls;
  Ok (context_get context ctxcls).

Definition get_referrer_context_or_die (cls : CmdClass) (context : CommandContext)
  : Result Frame :=
  ctx ← get_referrer_context cls context;
  match ctx with
  | None => Raise (RuntimeError ("no referrer context for " +:+ repr_cls cls))
  | Some ctx => Ok ctx
  end.

(** ** ReferencedObjectCommand: name derivation *)

(** The hooks [cls._classname_quals_from_ast] and
    [cls._classname_quals_from_name]: the override of the class where it
    has one, and else the default of this module, which gives no
    qualifier. *)
Definition _classname_quals_from_ast (cls : CmdClass) (schema : Schema)
  (astnode : ObjectRef) (base_name referrer_name : Name) (context : CommandContext)
  : list string :=
  match classname_quals_from_ast_of cls with
  | Some hook => hook schema astnode base_name referrer_name context
  | None => []
  end.

Definition _classname_quals_from_name (cls : CmdClass) (name : Name) : list string :=
  match classname_quals_from_name_of cls with
  | Some hook => hook name
  | None => []
  end.

Definition _classname_from_ast (cls : CmdClass) (schema : Schema) (astnode : ObjectRef)
  (context : CommandContext) : Result Name :=
  let name := super_classname_from_ast cls schema astnode context in
  parent_ctx ← get_referrer_context cls context;
  match parent_ctx with
  | Some parent_ctx =>
    if issubclass_cmd_of (cmd_class (f_op parent_ctx)) "QualifiedObjectCommand" then
      let referrer_name := classname (f_op parent_ctx) in
      let base_name :=
        ast_to_object_shell astnode (modaliases context) schema (cc_mcls cls) in
      let quals :=
        _classname_quals_from_ast cls schema astnode base_name referrer_name context in
      let pnn := get_specialized_name base_name referrer_name quals in
      Ok (mkName (n_module referrer_name) pnn)
    else Raise AssertionError
  | None => Ok name
  end.

Definition _classname_from_name (cls : CmdClass) (name referrer_name : Name) : Name :=
  let base_name := shortname_from_fullname name in
  let quals := _classname_quals_from_name cls name in
  let pnn := get_specialized_name base_name referrer_name quals in
  mkName (n_module referrer_name) pnn.

(** ** CreateReferencedObject *)

Definition as_inherited_ref_cmd (cls : CmdClass) (schema : Schema)
  (context : CommandContext) (astnode : ObjectRef) (parents : list Obj) : Result Command :=
  name ← _classname_from_ast cls schema astnode context;
  let cmd := new_command cls name in
  Ok (set_attribute_value cmd "name" (VName (classname cmd))).

Definition get_inherited_ref_name (schema : Schema) (context : CommandContext)
  (parent : Obj) (name : string) : ObjectRef :=
  let shortname :=
    if is_qualified name
    then name_str (shortname_from_fullname (Name_of_str name))
    else name in
  mkObjectRef shortname (Some (n_module (get_shortname schema parent))).

Definition as_inherited_ref_ast (schema : Schema) (context : CommandContext)
  (name : string) (parent : Obj) : ObjectRef :=
  get_inherited_ref_name schema context parent name.

(** [CreateReferencedObject._create_ref] *)
Definition CreateReferencedObject_create_ref (scls : Obj) (schema : Schema)
  (context : CommandContext) (referrer : Obj) : Schema :=
  let referrer_cls := type_of schema referrer in
  let mcls := type_of schema scls in
  let refdict := get_refdict_for_class referrer_cls mcls in
  add_classref referrer schema (rd_attr refdict) scls.

(** ** ReferencedInheritingObjectCommand *)

Definition _get_implicit_ref_bases (cls : CmdClass) (schema : Schema)
  (context : CommandContext) (referrer : Obj) (referrer_field : string) (fq_name : Name)
  : list Obj :=
  let child_referrer_bases := get_bases schema referrer in
  let ref_field_type := get_key_for_name (type_of schema referrer) referrer_field in
  flat_map (fun ref_base =>
    let fq_name_in_child := _classname_from_name cls fq_name (get_name schema ref_base) in
    let refname := ref_field_type schema fq_name_in_child in
    let parent_coll := get_field_coll schema ref_base referrer_field in
    match coll_get parent_coll refname with
    | Some parent_item =>
      if negb (get_is_final schema parent_item) then [parent_item] else []
    | None => []
    end) child_referrer_bases.

(** Modelled from the spec: [inheriting.delta_bases(old, new)] [returns the
    minimum edit to transform current into target preserving order]: the
    old bases that are not in the target, and the target bases that are
    new (their positions are left out). *)
Definition delta_bases (old_bases new_bases : list Name) : list Name * list Name :=
  (filter (fun b => b ∉ new_bases) old_bases,
   filter (fun b => b ∉ old_bases) new_bases).

(** The bases [get_ref_implicit_base_delta] keeps as explicit. *)
Definition explicit_bases_of (schema : Schema) (refcls : Obj) : list Obj :=
  let child_bases := get_bases schema refcls in
  let default_base := get_default_base_name (type_of schema refcls) in
  filter (fun b => generic schema b = true ∧ Some (get_name schema b) ≠ default_base)
    child_bases.

Definition get_ref_implicit_base_delta (schema : Schema) (context : CommandContext)
  (refcls : Obj) (implicit_bases : list Obj) : list Name * list Name :=
  let child_bases := get_bases schema refcls in
  let explicit_bases := explicit_bases_of schema refcls in
  let new_bases := implicit_bases ++ explicit_bases in
  delta_bases (map (get_name schema) child_bases) (map (get_name schema) new_bases).

(** The loop of [_validate] that collects the referrers of the implicit
    bases, with its [assert bref is not None]. *)
Fixpoint _validate_ancestry (schema : Schema) (implicit_bases : list Obj)
  : Result (list Obj) :=
  match implicit_bases with
  | [] => Ok []
  | obj :: rest =>
    match get_referrer schema obj with
    | None => Raise AssertionError
    | Some bref => ancestry ← _validate_ancestry schema rest; Ok (bref :: ancestry)
    end
  end.

Definition _validate (self : Command) (scls : Obj) (schema : Schema)
  (context : CommandContext) : Result unit :=
  let implicit_bases := get_implicit_bases schema scls in
  referrer_ctx ← get_referrer_context_or_die (cmd_class self) context;
  let objcls := get_schema_metaclass self in
  let referrer_class := get_schema_metaclass (f_op referrer_ctx) in
  let refdict := get_refdict_for_class referrer_class objcls in
  if declarative context && get_is_owned schema scls then
    if negb (bool_decide (implicit_bases = []))
       && rd_requires_explicit_overloaded refdict
       && negb (truthy (get_attribute_value self "declared_overloaded"))
    then
      ancestry ← _validate_ancestry schema implicit_bases;
      Raise (SchemaDefinitionError
        (get_verbosename schema scls true
           +:+ " must be declared using the `overloaded` keyword because "
           +:+ "it is defined in the following ancestor(s): "
           +:+ join ", " (map (fun a => name_str (get_shortname schema a)) ancestry))
        None)
    else if bool_decide (implicit_bases = [])
            && truthy (get_attribute_value self "declared_overloaded")
    then
      Raise (SchemaDefinitionError
        (get_verbosename schema scls true
           +:+ ": cannot be declared `overloaded` as there are no "
           +:+ "ancestors defining it.")
        None)
    else Ok ()
  else Ok ().

(** [self._propagate_ref_op(schema, context, scls, cb)]: the body of its
    loop for one descendant.  The callback receives the context as it is
    inside the two [with] blocks and returns the updated [d_alter_cmd]. *)
Definition _propagate_ref_op_descendant
  (schema : Schema) (context : CommandContext)
  (cb : CommandContext -> Command -> string -> Command) (refname : string)
  (descendant : Obj) : Result Command :=
  let d_alter_cmd := init_delta_command schema descendant AlterObject in
  if issubclass_obj (type_of schema descendant) "ReferencedObject" then
    let d_alter_cmd := set_ref_op_propagated d_alter_cmd true in
    match get_referrer schema descendant with
    | None => Raise AssertionError
    | Some d_referrer =>
      let r_alter_cmd := init_delta_command schema d_referrer AlterObject in
      let context_r := new_context r_alter_cmd context d_referrer in
      let context_d := new_context d_alter_cmd context_r descendant in
      let d_alter_cmd := cb context_d d_alter_cmd refname in
      Ok (add r_alter_cmd d_alter_cmd)
    end
  else Raise AssertionError.

Fixpoint _propagate_ref_op_loop (self : Command)
  (schema : Schema) (context : CommandContext)
  (cb : CommandContext -> Command -> string -> Command) (refname : string)
  (descendants : list Obj) : Result Command :=
  match descendants with
  | [] => Ok self
  | descendant :: rest =>
    r_alter_cmd ← _propagate_ref_op_descendant schema context cb refname descendant;
    _propagate_ref_op_loop (add self r_alter_cmd) schema context cb refname rest
  end.

(** The first loop of [_propagate_ref_op]: some frame of the stack holds
    a [ReferencedInheritingObjectCommand] whose [ref_op_propagated] is
    set. *)
Definition ref_op_already_propagated (context : CommandContext) : bool :=
  existsb (fun ctx =>
    issubclass_cmd_of (cmd_class (f_op ctx)) "ReferencedInheritingObjectCommand"
    && ref_op_propagated (f_op ctx)) (rev (stack context)).

Definition _propagate_ref_op (self : Command) (self_scls : Obj)
  (schema : Schema) (context : CommandContext) (scls : Obj)
  (cb : CommandContext -> Command -> string -> Command) : Result (Schema * Command) :=
  if ref_op_already_propagated context
  then Ok (schema, self)
  else
    referrer_ctx ← get_referrer_context_or_die (cmd_class self) context;
    let referrer := f_scls referrer_ctx in
    let referrer_class := type_of schema referrer in
    let mcls := type_of schema scls in
    let refdict := get_refdict_for_class referrer_class mcls in
    let refname := get_key_for referrer_class (rd_attr refdict) schema self_scls in
    self ← _propagate_ref_op_loop self schema context cb refname
             (ordered_descendants schema scls);
    Ok (schema, self).

(** [self._drop_owned_refs(schema, context, refdict)]: its loop. *)
Fixpoint _drop_owned_refs_loop (self : Command) (schema : Schema)
  (context : CommandContext) (refs : list Obj) : Result (Schema * Command) :=
  match refs with
  | [] => Ok (schema, self)
  | ref :: rest =>
    let inherited := get_implicit_bases schema ref in
    if negb (bool_decide (inherited = [])) && get_is_owned schema ref then
      let drop_owned := init_delta_command schema ref AlterOwned in
      let drop_owned := set_attribute_value drop_owned "is_owned" (VBool false) in
      let alter := init_delta_command schema ref AlterObject in
      let alter := add alter drop_owned in
      schema ← cmd_apply alter schema context;
      _drop_owned_refs_loop (add self alter) schema context rest
    else
      let drop_ref := init_delta_command schema ref DeleteObject in
      _drop_owned_refs_loop (add self drop_ref) schema context rest
  end.

Definition _drop_owned_refs (self : Command) (scls : Obj) (schema : Schema)
  (context : CommandContext) (refdict : RefDict) : Result (Schema * Command) :=
  let refs := get_field_coll schema scls (rd_attr refdict) in
  _drop_owned_refs_loop self schema context (coll_objects refs).

(** ** CreateReferencedInheritingObject *)

(** [bases.objects(schema)] of the value of the [bases] attribute. *)
Definition objects_of (v : option Value) : list Obj :=
  match v with
  | Some (VObjList l) => l
  | _ => []
  end.

(** The first part of [_create_begin], up to the call of
    [super()._create_begin]: the command with its [bases] attribute set. *)
Definition _create_begin_bases (self : Command) (referrer_ctx : option Frame)
  (schema : Schema) (context : CommandContext) : Command :=
  match referrer_ctx with
  | Some referrer_ctx =>
    if negb (canonical context) then
      let objcls := get_schema_metaclass self in
      let referrer := f_scls referrer_ctx in
      if issubclass_obj (type_of schema referrer) "InheritingObject" then
        let referrer_class := get_schema_metaclass (f_op referrer_ctx) in
        let refdict := get_refdict_for_class referrer_class objcls in
        let implicit_bases :=
          _get_implicit_ref_bases (cmd_class self) schema context referrer (rd_attr refdict)
            (classname self) in
        if negb (bool_decide (implicit_bases = [])) then
          let bases := get_attribute_value self "bases" in
          let bases :=
            if truthy bases
            then implicit_bases ++ filter (fun b => b ∉ implicit_bases) (objects_of bases)
            else implicit_bases in
          set_attribute_value self "bases" (VObjList bases)
        else self
      else self
    else self
  | None => self
  end.

Definition _create_begin (self : Command) (schema : Schema) (context : CommandContext)
  : Result (Schema * Command * Obj) :=
  referrer_ctx ← get_referrer_context (cmd_class self) context;
  let self := _create_begin_bases self referrer_ctx schema context in
  '(schema, self, scls) ← super_create_begin self schema context;
  _ ← match referrer_ctx with
      | Some _ =>
        if negb (canonical context) then _validate self scls schema context else Ok ()
      | None => Ok ()
      end;
  Ok (schema, self, scls).

(** The body of the loop of [_propagate_ref_creation] for one child that
    allows propagation: the [alter] command added to [self]. *)
Definition _propagate_ref_creation_child (self : Command) (scls : Obj)
  (schema : Schema) (context : CommandContext) (referrer : Obj) (child : Obj)
  : Result Command :=
  let mcls := type_of schema scls in
  let referrer_cls := type_of schema referrer in
  let alter_cmd := get_command_class_or_die AlterObject referrer_cls in
  let ref_create_cmd := get_command_class_or_die CreateObject mcls in
  let ref_alter_cmd := get_command_class_or_die AlterObject mcls in
  let ref_rebase_cmd := get_command_class_or_die RebaseInheritingObject mcls in
  let refdict := get_refdict_for_class referrer_cls mcls in
  let parent_fq_refname := get_name schema scls in
  let alter := new_command alter_cmd (get_name schema child) in
  let context := new_context alter context child in
  let refname :=
    get_key_for_name (type_of schema child) (rd_attr refdict) schema parent_fq_refname in
  let astnode := as_inherited_ref_ast schema context refname scls in
  fq_name ← _classname_from_ast (cmd_class self) schema astnode context;
  ref_create ← as_inherited_ref_cmd ref_create_cmd schema context astnode [scls];
  let ref_create := set_if_not_exists ref_create true in
  let ref_create := set_attribute_value ref_create (rd_backref_attr refdict) (VObj child) in
  let ref_create :=
    if get_is_derived schema child
    then set_attribute_value ref_create "is_derived" (VBool true)
    else ref_create in
  let ref_alter := set_if_exists (new_command ref_alter_cmd fq_name) true in
  let ref_alter :=
    add ref_alter (set_rebase_fields (new_command ref_rebase_cmd fq_name) true [] []) in
  let alter := add alter ref_alter in
  let alter := add alter ref_create in
  Ok alter.

Fixpoint _propagate_ref_creation_loop (self : Command) (scls : Obj)
  (schema : Schema) (context : CommandContext) (referrer : Obj) (refdict : RefDict)
  (children : list Obj) : Result Command :=
  match children with
  | [] => Ok self
  | child :: rest =>
    if allow_ref_propagation schema context refdict child then
      alter ← _propagate_ref_creation_child self scls schema context referrer child;
      _propagate_ref_creation_loop (add self alter) scls schema context referrer refdict rest
    else
      _propagate_ref_creation_loop self scls schema context referrer refdict rest
  end.

Definition _propagate_ref_creation (self : Command) (scls : Obj)
  (schema : Schema) (context : CommandContext) (referrer : Obj)
  : Result (Schema * Command) :=
  let mcls := type_of schema scls in
  let referrer_cls := type_of schema referrer in
  let ref_create_cmd := get_command_class_or_die CreateObject mcls in
  let ref_rebase_cmd := get_command_class_or_die RebaseInheritingObject mcls in
  if issubclass_cmd_of ref_create_cmd "CreateReferencedInheritingObject"
     && issubclass_cmd_of ref_rebase_cmd "RebaseReferencedInheritingObject"
  then
    let refdict := get_refdict_for_class referrer_cls mcls in
    self ← _propagate_ref_creation_loop self scls schema context referrer refdict
             (children schema referrer);
    Ok (schema, self)
  else Raise AssertionError.

(** [CreateReferencedInheritingObject._create_ref] *)
Definition _create_ref (self : Command) (scls : Obj)
  (schema : Schema) (context : CommandContext) (referrer : Obj)
  : Result (Schema * Command) :=
  let referrer_cls := type_of schema referrer in
  let schema := CreateReferencedObject_create_ref scls schema context referrer in
  if negb (get_is_final schema scls)
     && issubclass_obj referrer_cls "InheritingObject"
     && negb (canonical context)
     && enable_recursion context
  then _propagate_ref_creation self scls schema context referrer
  else Ok (schema, self).

(** [CreateReferencedObject._create_innards], with the [_create_ref] of
    [CreateReferencedInheritingObject]. *)
Definition _create_innards (self : Command) (scls : Obj)
  (schema : Schema) (context : CommandContext) : Result (Schema * Command) :=
  referrer_ctx ← get_referrer_context (cmd_class self) context;
  match referrer_ctx with
  | None => super_create_innards self schema context
  | Some referrer_ctx =>
    let referrer := f_scls referrer_ctx in
    '(schema, self) ← _create_ref self scls schema context referrer;
    super_create_innards self schema context
  end.

(** ** AlterReferencedInheritingObject *)

Definition AlterReferencedInheritingObject_alter_begin (self : Command) (scls : Obj)
  (schema : Schema) (context : CommandContext) : Result (Schema * Command) :=
  let was_local := get_is_owned schema scls in
  '(schema, self) ← super_alter_begin self scls schema context;
  let now_local := get_is_owned schema scls in
  _ ← (if negb was_local && now_local then _validate self scls schema context else Ok ());
  Ok (schema, self).

(** ** RenameReferencedInheritingObject *)

(** The callback [_ref_rename] of [_propagate_ref_rename]. *)
Definition _ref_rename (rename_cmdcls : CmdClass) (schema : Schema)
  (context : CommandContext) (alter_cmd : Command) (refname : string) : Command :=
  let astnode := mkObjectRef refname None in
  let rename_cmd := _rename_cmd_from_ast rename_cmdcls schema astnode context in
  add alter_cmd rename_cmd.

Definition _propagate_ref_rename (self : Command) (schema : Schema)
  (context : CommandContext) (scls : Obj) : Result (Schema * Command) :=
  let rename_cmdcls := get_command_class_or_die RenameObject (type_of schema scls) in
  _propagate_ref_op self scls schema context scls (_ref_rename rename_cmdcls schema).

(** [set(implicit_bases) - context.renamed_objs]; the set is listed in
    the order of [elements]. *)
Definition non_renamed_bases_of (schema : Schema) (context : CommandContext) (scls : Obj)
  : list Obj :=
  elements ((list_to_set (get_implicit_bases schema scls) : gset positive)
              ∖ renamed_objs context).

Definition _rename_begin (self : Command) (scls : Obj) (schema : Schema)
  (context : CommandContext) : Result (Schema * Command) :=
  let orig_schema := schema in
  '(schema, self) ← super_rename_begin self scls schema context;
  if negb (canonical context) && negb (generic schema scls) then
    let non_renamed_bases := non_renamed_bases_of schema context scls in
    if negb (bool_decide (non_renamed_bases = [])) then
      let bases_str :=
        join ", " (map (fun b => get_verbosename schema b true) non_renamed_bases) in
      let verb := if bool_decide (1 < length non_renamed_bases) then "are" else "is" in
      let vn := get_verbosename orig_schema scls true in
      Raise (SchemaDefinitionError
        ("cannot rename inherited " +:+ vn)
        (Some (vn +:+ " is inherited from " +:+ bases_str +:+ ", which " +:+ verb
                 +:+ " not being renamed")))
    else _propagate_ref_rename self schema context scls
  else Ok (schema, self).

(** ** DeleteReferencedInheritingObject *)

Definition _propagate_ref_deletion (self : Command) (schema : Schema)
  (context : CommandContext) (refdict : RefDict) (child : Obj) (child_ref : Obj)
  : Result (Schema * Command) :=
  let name := get_name schema child_ref in
  let implicit_bases :=
    _get_implicit_ref_bases (cmd_class self) schema context child (rd_attr refdict) name in
  let cmd :=
    if get_is_owned schema child_ref || negb (bool_decide (implicit_bases = [])) then
      let '(removed_bases, added_bases) :=
        get_ref_implicit_base_delta schema context child_ref implicit_bases in
      let rebase_cmd :=
        set_rebase_fields (init_delta_command schema child_ref AlterObject)
          false added_bases removed_bases in
      let cmd := init_delta_command schema child_ref AlterObject in
      add cmd rebase_cmd
    else init_delta_command schema child_ref DeleteObject in
  schema ← cmd_apply cmd schema context;
  Ok (schema, cmd).

(** The line feed of the message of [_delete_ref]. *)
Definition nl : string := String (Ascii.ascii_of_nat 10) EmptyString.

(** The names of the parents in the details of the error of [_delete_ref]:
    [p.get_verbosename(schema, with_parent=True)] for the value of the back
    link of each base. *)
Fixpoint _delete_ref_parent_names (schema : Schema) (backref_attr : string)
  (bases : list Obj) : Result (list string) :=
  match bases with
  | [] => Ok []
  | b :: rest =>
    match get_field_value schema b backref_attr with
    | Some (VObj p) =>
      names ← _delete_ref_parent_names schema backref_attr rest;
      Ok (get_verbosename schema p true :: names)
    | _ => Raise (AttributeError "object has no attribute 'get_verbosename'")
    end
  end.

(** [implicit_bases -= deleted_bases] in [_delete_ref]: the implicit bases
    of the ref that no command of the class of [self] on the context stack
    works on; the set is listed in the order of [elements]. *)
Definition _delete_ref_remaining_bases (self : Command) (schema : Schema)
  (context : CommandContext) (referrer : Obj) (attr : string) (self_name : Name)
  : list Obj :=
  let implicit_bases : gset positive :=
    list_to_set (_get_implicit_ref_bases (cmd_class self) schema context referrer attr self_name) in
  let deleted_bases : gset positive :=
    list_to_set
      (map f_scls
         (filter (fun ctx => issubclass_cmd (cmd_class (f_op ctx)) (cmd_class self) = true)
            (stack context))) in
  elements (implicit_bases ∖ deleted_bases).

(** The dependency verification of [_delete_ref]: an inherited ref cannot
    be dropped. *)
Definition _delete_ref_verify (self : Command) (scls : Obj) (schema : Schema)
  (context : CommandContext) (referrer : Obj) (refdict : RefDict) (self_name : Name)
  : Result unit :=
  if negb (in_deletion context 1) && negb (disable_dep_verification context) then
    let implicit_bases :=
      _delete_ref_remaining_bases self schema context referrer (rd_attr refdict)
        self_name in
    if negb (bool_decide (implicit_bases = [])) then
      let vn := get_verbosename schema scls true in
      parents ← _delete_ref_parent_names schema (rd_backref_attr refdict) implicit_bases;
      let pnames := join (nl +:+ "- ") parents in
      Raise (SchemaError
        ("cannot drop inherited " +:+ vn)
        (Some (vn +:+ " is inherited from:" +:+ nl +:+ "- " +:+ pnames)))
    else Ok ()
  else Ok ().

(** The loop of [_delete_ref] over the children of the referrer. *)
Fixpoint _delete_ref_children (self : Command) (schema : Schema)
  (context : CommandContext) (referrer_class : PyClass) (refdict : RefDict)
  (self_name : Name) (children : list Obj) : Result (Schema * Command) :=
  match children with
  | [] => Ok (schema, self)
  | child :: rest =>
    let child_coll := get_field_coll schema child (rd_attr refdict) in
    let fq_refname_in_child :=
      _classname_from_name (cmd_class self) self_name (get_name schema child) in
    let child_refname :=
      get_key_for_name referrer_class (rd_attr refdict) schema fq_refname_in_child in
    match coll_get child_coll child_refname with
    | Some existing =>
      let alter := init_delta_command schema child AlterObject in
      '(schema, cmd) ←
        _propagate_ref_deletion self schema (new_context alter context child) refdict
          child existing;
      let alter := add alter cmd in
      _delete_ref_children (add self alter) schema context referrer_class refdict
        self_name rest
    | None =>
      _delete_ref_children self schema context referrer_class refdict self_name rest
    end
  end.

Definition _delete_ref (self : Command) (scls : Obj) (schema : Schema)
  (context : CommandContext) (referrer : Obj) : Result (Schema * Command) :=
  let referrer_class := type_of schema referrer in
  let mcls := type_of schema scls in
  let refdict := get_refdict_for_class referrer_class mcls in
  let refname := get_key_for referrer_class (rd_attr refdict) schema scls in
  let self_name := get_name schema scls in
  let schema := del_classref referrer schema (rd_attr refdict) refname in
  if issubclass_obj referrer_class "InheritingObject"
     && negb (canonical context)
  then
    _ ← _delete_ref_verify self scls schema context referrer refdict self_name;
    _delete_ref_children self schema context referrer_class refdict self_name
      (children schema referrer)
  else Ok (schema, self).

(** ** AlterOwned *)

Definition upper_ascii (c : Ascii.ascii) : Ascii.ascii :=
  let n := Ascii.nat_of_ascii c in
  if Nat.leb 97 n && Nat.leb n 122 then Ascii.ascii_of_nat (n - 32) else c.

(** [str.upper()] on ASCII letters. *)
Fixpoint upper (s : string) : string :=
  match s with
  | EmptyString => EmptyString
  | String c rest => String (upper_ascii c) (upper rest)
  end.

(** [for refdict in type(scls).get_refdicts(): schema = self._drop_owned_refs(...)] *)
Fixpoint _alter_begin_refdicts (self : Command) (scls : Obj) (schema : Schema)
  (context : CommandContext) (refdicts : list RefDict) : Result (Schema * Command) :=
  match refdicts with
  | [] => Ok (schema, self)
  | refdict :: rest =>
    '(schema, self) ← _drop_owned_refs self scls schema context refdict;
    _alter_begin_refdicts self scls schema context rest
  end.

(** [AlterOwned._alter_begin] *)
Definition _alter_begin (self : Command) (scls : Obj) (schema : Schema)
  (context : CommandContext) : Result (Schema * Command) :=
  let orig_schema := schema in
  '(schema, self) ← super_alter_begin self scls schema context;
  let orig_owned := get_is_owned orig_schema scls in
  let owned := get_is_owned schema scls in
  if negb (eqb orig_owned owned) && negb owned && negb (canonical context) then
    let implicit_bases := get_implicit_bases schema scls in
    if bool_decide (implicit_bases = []) then
      let vn := get_verbosename schema scls true in
      let sn := upper (get_schema_class_displayname (type_of schema scls)) in
      Raise (InvalidDefinitionError
        ("cannot drop owned " +:+ vn +:+ ", as it is not inherited, "
           +:+ "use DROP " +:+ sn +:+ " instead"))
    else
      let bases := get_bases schema scls in
      '(schema, self) ← inherit_fields self schema context bases true;
      _alter_begin_refdicts self scls schema context (get_refdicts (type_of schema scls))
  else Ok (schema, self).

(** ** ReferencedObject *)

(** Modelled from the spec: the constructor of [CommandContext], called
    with [modaliases], [schema] and [disable_dep_verification]: an empty
    stack, no renamed object, and the default flags of the framework. *)
Definition CommandContext_init (modaliases : list (string * string))
  (disable_dep_verification : bool) : CommandContext :=
  mkContext None [] modaliases false false false true disable_dep_verification ∅.

(** [with context(sd.DeltaRootContext(schema=schema, op=delta))] *)
Definition with_delta_root (context : CommandContext) (delta : Command)
  : CommandContext :=
  mkContext (Some delta) (stack context) (modaliases context) (canonical context)
    (declarative context) (descriptive_mode context) (enable_recursion context)
    (disable_dep_verification context) (renamed_objs context).

(** The context [ReferencedObject.delete] builds. *)
Definition delete_context (schema : Schema) : CommandContext :=
  CommandContext_init [] true.


(** ** The specification's wording of the implicit-base resolver *)

(** The ref a base of the referrer contributes: the ref found in the
    base's collection under the key of the name mangled for that base,
    unless it is final. *)
Definition implicit_ref_in_base (cls : CmdClass) (schema : Schema) (referrer : Obj)
  (referrer_field : string) (fq_name : Name) (ref_base : Obj) : option Obj :=
  let fq_name_in_base := _classname_from_name cls fq_name (get_name schema ref_base) in
  let key :=
    get_key_for_name (type_of schema referrer) referrer_field schema fq_name_in_base in
  match coll_get (get_field_coll schema ref_base referrer_field) key with
  | Some found => if get_is_final schema found then None else Some found
  | None => None
  end.

(** ** The specification's wording of [DROP OWNED] on the sub-refs *)

(** [cmd.add] of each command of a list, in order. *)
Definition add_all (cmd : Command) (subs : list Command) : Command :=
  fold_left add subs cmd.

(** [a nested AlterOwned(false)]: the alter of the sub-ref that holds an
    [AlterOwned] command assigning [is_owned = False]. *)
Definition alter_owned_false (schema : Schema) (ref : Obj) : Command :=
  add (init_delta_command schema ref AlterObject)
    (set_attribute_value (init_delta_command schema ref AlterOwned) "is_owned"
       (VBool false)).

(** The commands emitted for the sub-refs of one collection, and the
    schema they leave: a sub-ref that is inherited and owned gets a nested
    AlterOwned(false), which is applied at once; any other sub-ref gets a
    DeleteObject. *)
Inductive drop_owned_refs_run (context : CommandContext)
  : Schema -> list Obj -> list Command -> Schema -> Prop :=
| drop_owned_refs_nil schema :
    drop_owned_refs_run context schema [] [] schema
| drop_owned_refs_unown schema schema1 schema' ref rest cmds :
    get_implicit_bases schema ref <> [] ->
    get_is_owned schema ref = true ->
    cmd_apply (alter_owned_false schema ref) schema context = Ok schema1 ->
    drop_owned_refs_run context schema1 rest cmds schema' ->
    drop_owned_refs_run context schema (ref :: rest)
      (alter_owned_false schema ref :: cmds) schema'
| drop_owned_refs_delete schema schema' ref rest cmds :
    get_implicit_bases schema ref = [] \/ get_is_owned schema ref = false ->
    drop_owned_refs_run context schema rest cmds schema' ->
    drop_owned_refs_run context schema (ref :: rest)
      (init_delta_command schema ref DeleteObject :: cmds) schema'.

(** The same for every RefDict of the class of the ref, one after the
    other. *)
Inductive drop_owned_run (context : CommandContext) (scls : Obj)
  : Schema -> list RefDict -> list Command -> Schema -> Prop :=
| drop_owned_nil schema :
    drop_owned_run context scls schema [] [] schema
| drop_owned_cons schema schema1 schema' refdict rest cmds1 cmds :
    drop_owned_refs_run context schema
      (coll_objects (get_field_coll schema scls (rd_attr refdict))) cmds1 schema1 ->
    drop_owned_run context scls schema1 rest cmds schema' ->
    drop_owned_run context scls schema (refdict :: rest) (cmds1 ++ cmds) schema'.

(** ** The specification's wording of the propagated commands *)

(** [AlterObject(descendant_referrer) > AlterObject(descendant_ref) >
    RenameObject(new short name)], the inner alter marked
    [ref_op_propagated]: the command a rename of [scls] adds for one
    descendant. *)
Definition propagated_rename (schema : Schema) (context : CommandContext)
  (scls : Obj) (refname : string) (descendant d_referrer : Obj) : Command :=
  let r_alter := init_delta_command schema d_referrer AlterObject in
  let d_alter :=
    set_ref_op_propagated (init_delta_command schema descendant AlterObject) true in
  let rename :=
    _rename_cmd_from_ast (get_command_class_or_die RenameObject (type_of schema scls))
      schema (mkObjectRef refname None)
      (new_context d_alter (new_context r_alter context d_referrer) descendant) in
  add r_alter (add d_alter rename).





End Referencing.

(** ** Further collaborators

    What the rest of the module calls of the framework: the derivation of
    names, the lookup of objects, the generic parts of the commands it
    overrides, and the AST of a DDL command. *)

(** The AST of a DDL command, as far as this module reads it: its [name],
    whether [is_abstract] is set, and the [owned] of an [AlterOwned]
    node. *)
Record AstNode := mkAstNode {
  ast_name : ObjectRef;
  ast_is_abstract : bool;
  ast_owned : bool
}.

(** The flags [derive_ref] assigns to the current frame of the context it
    applies its delta in; [None] is a flag it leaves alone. *)
Record DeriveFlags := mkDeriveFlags {
  df_inheritance_merge : option bool;
  df_inheritance_refdicts : option (list string);
  df_mark_derived : option bool;
  df_transient_derivation : option bool;
  df_preserve_path_id : option bool
}.

(** The [bases] argument of [get_implicit_bases]: an
    [ObjectCollectionShell] with its items, an [ObjectList], or another
    iterable of shells; a shell is given by its name. *)
Inductive BasesArg :=
| BCollectionShell (items : list Name)
| BObjectList (objects : list Obj)
| BShells (shells : list Name).

Class Framework := {
  (* names and objects *)
  get_derived_name : Schema -> Obj -> Obj -> list string -> bool -> option string -> Name;
  is_SchemaName : Name -> bool;
  repr_obj : Obj -> string;
  schema_get : Schema -> Name -> Result Obj;
  get_object : Command -> Schema -> CommandContext -> Result Obj;
  super_get_verbosename : Schema -> Obj -> bool -> string;
  (* the AST *)
  is_referenced_astnode : CmdClass -> AstNode -> bool;
  has_ddl_subcommand_AlterOwned : AstNode -> bool;
  super_cmd_tree_from_ast : CmdClass -> Schema -> AstNode -> CommandContext -> Result Command;
  super_get_bases_for_ast : Command -> Schema -> CommandContext -> list Name -> list Name;
  (* the generic commands *)
  delta_apply : Command -> Schema -> CommandContext -> DeriveFlags -> Result Schema;
  super_rebase_apply : Command -> Schema -> CommandContext -> Result (Schema * Command);
  super_delete_innards : Command -> Schema -> CommandContext -> Result (Schema * Command)
}.

Section ReferencingMore.

Context `{E : Env} `{F : Framework}.

(** ** ReferencedObject.get_verbosename *)

(** [ReferencedObject.get_verbosename]: the recursion follows the subjects
    that are referenced objects themselves; [fuel] bounds its depth, and
    [None] is a walk cut short.  The name of a subject of another class is
    the framework's. *)
Fixpoint ReferencedObject_get_verbosename (fuel : nat) (schema : Schema) (o : Obj)
  (with_parent : bool) : option string :=
  match fuel with
  | 0 => None
  | S fuel =>
    let vn := super_get_verbosename schema o false in
    if with_parent then
      match get_subject schema o with
      | Some subject =>
        pn ← (if issubclass_obj (type_of schema subject) "ReferencedObject"
              then ReferencedObject_get_verbosename fuel schema subject true
              else Some (super_get_verbosename schema subject true));
        Some (vn +:+ " of " +:+ pn)
      | None => Some vn
      end
    else Some vn
  end.

(** ** ReferencedObjectCommand._build_alter_cmd_stack *)

(** [sd.DeltaRoot()] *)
Definition DeltaRoot_new : Command :=
  new_command (mkCmdClass DeltaRoot EmptyString) (mkName EmptyString EmptyString).

(** The [while] loop of [_build_alter_cmd_stack]: what it appends to
    [object_stack], starting from [obj].  It appends the referrer of every
    referenced object it reaches, also when that referrer is [None].
    [fuel] bounds the walk, and the outer [None] is a walk cut short. *)
Fixpoint _build_alter_cmd_stack_walk (fuel : nat) (schema : Schema) (obj : option Obj)
  : option (list (option Obj)) :=
  match obj with
  | None => Some []
  | Some o =>
    match fuel with
    | 0 => None
    | S fuel =>
      if issubclass_obj (type_of schema o) "ReferencedObject" then
        let obj := get_referrer schema o in
        rest ← _build_alter_cmd_stack_walk fuel schema obj;
        Some (obj :: rest)
      else Some []
    end
  end.

(** The [for] loop of [_build_alter_cmd_stack] over the reversed stack:
    the alter commands it chains, the outermost first.  None of them holds
    the next one yet: see [nest]. *)
Fixpoint _build_alter_cmd_stack_alters (schema : Schema) (reversed_stack : list (option Obj))
  : Result (list Command) :=
  match reversed_stack with
  | [] => Ok []
  | None :: _ => Raise AssertionError
  | Some obj :: rest =>
    let alter_cmd := init_delta_command schema obj AlterObject in
    alters ← _build_alter_cmd_stack_alters schema rest;
    Ok (alter_cmd :: alters)
  end.

(** The commands under a parent once each command of the chain [alters]
    holds the next one and the last one holds [added]: the chain is built
    with [cmd.add(alter_cmd); cmd = alter_cmd], so that what is added to
    the last command later is seen from the root. *)
Fixpoint nest (alters : list Command) (added : list Command) : list Command :=
  match alters with
  | [] => added
  | alter_cmd :: rest => [add_all alter_cmd (nest rest added)]
  end.

(** [_build_alter_cmd_stack]: the chain of alter commands, the outermost
    first.  The [delta] it returns is [delta_of] the chain and the [cmd] it
    returns is the last command of the chain, or the delta itself for an
    empty chain; [delta_of alters added] is the delta after the caller has
    added [added] to [cmd].  The class of a command never is the class of a
    schema object, so the given referrer always enters the stack. *)
Definition _build_alter_cmd_stack (fuel : nat) (self : Command) (schema : Schema)
  (context : CommandContext) (scls : Obj) (referrer : option Obj)
  : option (Result (list Command)) :=
  let referrer :=
    match referrer with
    | None =>
      if issubclass_obj (type_of schema scls) "ReferencedObject"
      then Ok (get_referrer schema scls)
      else Raise AssertionError
    | Some r => Ok (Some r)
    end in
  match referrer with
  | Raise e => Some (Raise e)
  | Ok referrer =>
    walked ← _build_alter_cmd_stack_walk fuel schema referrer;
    let object_stack := referrer :: walked in
    Some (_build_alter_cmd_stack_alters schema (rev object_stack))
  end.

Definition delta_of (alters : list Command) (added : list Command) : Command :=
  add_all DeltaRoot_new (nest alters added).

(** ** ReferencedObject.derive_ref *)

(** Modelled from the spec: [sd.get_object_delta_command(objtype, cmdtype,
    schema, name)], the command of the kind [cmdtype] registered for the
    class [objtype], with the given name. *)
Definition get_object_delta_command (objtype : PyClass) (cmdtype : CmdKind) (name : Name)
  : Command :=
  new_command (get_command_class_or_die cmdtype objtype) name.

(** [for k, v in derived_attrs.items(): cmd.set_attribute_value(k, v)] *)
Definition set_attribute_values (cmd : Command) (values : gmap string Value) : Command :=
  map_fold (fun k v cmd => set_attribute_value cmd k v) cmd values.

(** The command [derive_ref] builds for the derived ref, before it is put
    into the stack of alters of its referrers. *)
Definition derive_ref_cmd (self : Obj) (schema : Schema) (referrer : Obj)
  (attrs : option (gmap string Value)) (derived_name : Name) : Command :=
  let derived_attrs : gmap string Value := default ∅ attrs in
  let derived_attrs := <["name" := VName derived_name]> derived_attrs in
  let derived_attrs := <["bases" := VObjList [self]]> derived_attrs in
  let mcls := type_of schema self in
  let referrer_class := type_of schema referrer in
  let refdict := get_refdict_for_class referrer_class mcls in
  let refname := get_key_for_name referrer_class (rd_attr refdict) schema derived_name in
  let refcoll := get_field_coll schema referrer (rd_attr refdict) in
  let existing := coll_get refcoll refname in
  let cmdcls := match existing with Some _ => AlterObject | None => CreateObject end in
  let cmd := get_object_delta_command (type_of schema self) cmdcls derived_name in
  let cmd := set_attribute_values cmd derived_attrs in
  match existing with
  | Some existing =>
    let new_bases := [self] in
    let old_bases := get_bases schema existing in
    if bool_decide (new_bases <> old_bases) then
      let '(removed_bases, added_bases) :=
        delta_bases (map (get_name schema) old_bases) (map (get_name schema) new_bases) in
      let rebase_cmd :=
        set_rebase_fields
          (get_object_delta_command (type_of schema self) RebaseInheritingObject
             derived_name)
          false added_bases removed_bases in
      add cmd rebase_cmd
    else cmd
  | None => cmd
  end.

(** The flags [derive_ref] assigns inside its [with] block. *)
Definition derive_ref_flags (inheritance_merge : bool)
  (inheritance_refdicts : option (list string)) (mark_derived transient : bool)
  (preserve_path_id : option bool) : DeriveFlags :=
  mkDeriveFlags
    (if negb inheritance_merge then Some false else None)
    inheritance_refdicts
    (if mark_derived then Some true else None)
    (if transient then Some true else None)
    (if default false preserve_path_id then Some true else None).

(** [ReferencedObject.derive_ref]; [fuel] bounds the walk of
    [_build_alter_cmd_stack]. *)
Definition derive_ref (fuel : nat) (self : Obj) (schema : Schema) (referrer : Obj)
  (qualifiers : list string) (mark_derived : bool) (attrs : option (gmap string Value))
  (derived_name_base : option string) (inheritance_merge : bool)
  (preserve_path_id : option bool) (inheritance_refdicts : option (list string))
  (transient : bool) (name : option Name) : option (Result (Schema * Obj)) :=
  let derived_name :=
    match name with
    | None => get_derived_name schema self referrer qualifiers mark_derived derived_name_base
    | Some name => name
    end in
  if bool_decide (get_name schema self = derived_name) then
    Some (Raise (SchemaError
      ("cannot derive " +:+ repr_obj self +:+ "(" +:+ name_str derived_name
         +:+ ") from itself") None))
  else
    let cmd := derive_ref_cmd self schema referrer attrs derived_name in
    let context := CommandContext_init [] false in
    stack ← _build_alter_cmd_stack fuel cmd schema context self (Some referrer);
    Some (
      alters ← stack;
      let delta := delta_of alters [cmd] in
      schema ← delta_apply delta schema (with_delta_root context delta)
                 (derive_ref_flags inheritance_merge inheritance_refdicts mark_derived
                    transient preserve_path_id);
      derived ← schema_get schema derived_name;
      Ok (schema, derived)).

(** ** CreateReferencedObject._cmd_tree_from_ast and its siblings *)

(** [CreateReferencedObject._cmd_tree_from_ast] *)
Definition CreateReferencedObject_cmd_tree_from_ast (cls : CmdClass) (schema : Schema)
  (astnode : AstNode) (context : CommandContext) : Result Command :=
  cmd ← super_cmd_tree_from_ast cls schema astnode context;
  if is_referenced_astnode cls astnode then
    let objcls := cc_mcls cls in
    referrer_ctx ← get_referrer_context_or_die cls context;
    let referrer_class := get_schema_metaclass (f_op referrer_ctx) in
    let referrer_name := classname (f_op referrer_ctx) in
    let refdict := get_refdict_for_class referrer_class objcls in
    let cmd :=
      set_attribute_value cmd (rd_backref_attr refdict)
        (VShell referrer_name referrer_class) in
    let cmd := set_attribute_value cmd "is_owned" (VBool true) in
    let cmd :=
      if ast_is_abstract astnode
      then set_attribute_value cmd "is_abstract" (VBool true)
      else cmd in
    Ok cmd
  else Ok cmd.

(** [AlterReferencedInheritingObject._cmd_tree_from_ast] *)
Definition AlterReferencedInheritingObject_cmd_tree_from_ast (cls : CmdClass)
  (schema : Schema) (astnode : AstNode) (context : CommandContext) : Result Command :=
  cmd ← super_cmd_tree_from_ast cls schema astnode context;
  refctx ← get_referrer_context cls context;
  match refctx with
  | Some _ =>
    if negb (has_ddl_subcommand_AlterOwned astnode)
    then Ok (set_attribute_value cmd "is_owned" (VBool true))
    else Ok cmd
  | None => Ok cmd
  end.

(** [AlterOwned._cmd_tree_from_ast] *)
Definition AlterOwned_cmd_tree_from_ast (cls : CmdClass) (schema : Schema)
  (astnode : AstNode) (context : CommandContext) : Result Command :=
  cmd ← super_cmd_tree_from_ast cls schema astnode context;
  Ok (set_attribute_value cmd "is_owned" (VBool (ast_owned astnode))).

(** ** DeleteReferencedObjectCommand *)

(** [DeleteReferencedObjectCommand._delete_ref] *)
Definition DeleteReferencedObjectCommand_delete_ref (scls : Obj) (schema : Schema)
  (context : CommandContext) (referrer : Obj) : Schema :=
  let referrer_class := type_of schema referrer in
  let mcls := type_of schema scls in
  let refdict := get_refdict_for_class referrer_class mcls in
  let refname := get_key_for referrer_class (rd_attr refdict) schema scls in
  del_classref referrer schema (rd_attr refdict) refname.

(** [DeleteReferencedObjectCommand._delete_innards], with the [_delete_ref]
    of [DeleteReferencedInheritingObject]. *)
Definition _delete_innards (self : Command) (scls : Obj) (schema : Schema)
  (context : CommandContext) : Result (Schema * Command) :=
  '(schema, self) ← super_delete_innards self schema context;
  referrer_ctx ← get_referrer_context (cmd_class self) context;
  match referrer_ctx with
  | None => Ok (schema, self)
  | Some referrer_ctx =>
    let referrer := f_scls referrer_ctx in
    _delete_ref self scls schema context referrer
  end.

(** ** ReferencedInheritingObjectCommand.get_implicit_bases *)

(** The names of the bases: [b.get_name(schema)] of each. *)
Definition base_names_of (schema : Schema) (bases : BasesArg) : list Name :=
  match bases with
  | BCollectionShell items => items
  | BObjectList objects => map (get_name schema) objects
  | BShells shells => shells
  end.

(** The test of the comprehension of [get_implicit_bases]. *)
Definition is_implicit_base_name (default_base : option Name) (b : Name) : bool :=
  negb (bool_decide (Some b = default_base))
  && is_SchemaName b
  && negb (bool_decide (shortname_from_fullname b = b)).

(** [ReferencedInheritingObjectCommand.get_implicit_bases] *)
Definition cmd_get_implicit_bases (self : Command) (schema : Schema)
  (context : CommandContext) (bases : BasesArg) : list Name :=
  let mcls := get_schema_metaclass self in
  let default_base := get_default_base_name mcls in
  let base_names := base_names_of schema bases in
  filter (fun b => is_implicit_base_name default_base b = true) base_names.

(** ** RebaseReferencedInheritingObject *)

(** The first part of [RebaseReferencedInheritingObject.apply], up to the
    call of [super().apply]: the command with its deltas recomputed. *)
Definition RebaseReferencedInheritingObject_recompute (self : Command) (schema : Schema)
  (context : CommandContext) : Result Command :=
  if negb (canonical context) && implicit self then
    let mcls := get_schema_metaclass self in
    refctx ← get_referrer_context_or_die (cmd_class self) context;
    let referrer := f_scls refctx in
    if issubclass_obj (type_of schema referrer) "InheritingObject" then
      let refdict := get_refdict_for_class (type_of schema referrer) mcls in
      let implicit_bases :=
        _get_implicit_ref_bases (cmd_class self) schema context referrer (rd_attr refdict)
          (classname self) in
      scls ← get_object self schema context;
      let '(removed_bases, added_bases) :=
        get_ref_implicit_base_delta schema context scls implicit_bases in
      Ok (set_rebase_fields self (implicit self) added_bases removed_bases)
    else Raise AssertionError
  else Ok self.

(** [RebaseReferencedInheritingObject.apply] *)
Definition RebaseReferencedInheritingObject_apply (self : Command) (schema : Schema)
  (context : CommandContext) : Result (Schema * Command) :=
  self ← RebaseReferencedInheritingObject_recompute self schema context;
  super_rebase_apply self schema context.

(** [RebaseReferencedInheritingObject._get_bases_for_ast]; a shell of the
    tuple is given by its name. *)
Definition _get_bases_for_ast (self : Command) (schema : Schema)
  (context : CommandContext) (bases : list Name) : list Name :=
  let bases := super_get_bases_for_ast self schema context bases in
  let implicit_bases := cmd_get_implicit_bases self schema context (BShells bases) in
  filter (fun b => b ∉ implicit_bases) bases.

(** ** The chain of referrers *)

(** [referrer_walk schema o chain closed]: [chain] lists [o], its referrer,
    the referrer of that one, and so on, as long as the object is a
    referenced object.  The walk is closed when it ends at an object that is
    no referenced object, and open when it ends at a referenced object
    without referrer. *)
Inductive referrer_walk (schema : Schema) : Obj -> list Obj -> bool -> Prop :=
| referrer_walk_top o :
    issubclass_obj (type_of schema o) "ReferencedObject" = false ->
    referrer_walk schema o [o] true
| referrer_walk_open o :
    issubclass_obj (type_of schema o) "ReferencedObject" = true ->
    get_referrer schema o = None ->
    referrer_walk schema o [o] false
| referrer_walk_step o r chain closed :
    issubclass_obj (type_of schema o) "ReferencedObject" = true ->
    get_referrer schema o = Some r ->
    referrer_walk schema r chain closed ->
    referrer_walk schema o (o :: chain) closed.

(** The parts of the verbose name of the first object of a chain: the
    framework's name of each referenced object, and for the object a closed
    chain ends at, the framework's name with its own parents. *)
Fixpoint chain_verbosenames (schema : Schema) (chain : list Obj) (closed : bool)
  : list string :=
  match chain with
  | [] => []
  | [o] => [super_get_verbosename schema o closed]
  | o :: rest => super_get_verbosename schema o false :: chain_verbosenames schema rest closed
  end.

End ReferencingMore.

(** * The application of the delta of a delete

    [ReferencedObject.delete] hands its delta to [delta.apply], which is
    the generic framework's; the commands of the delta come back to this
    module through the methods it overrides. *)

(** The collaborators [E] with [apply] as the apply of commands. *)
Definition with_cmd_apply (E : Env)
  (apply : Command -> Schema -> CommandContext -> Result Schema) : Env :=
{|
  get_specialized_name := @get_specialized_name E;
  shortname_from_fullname := @shortname_from_fullname E;
  is_qualified := @is_qualified E;
  Name_of_str := @Name_of_str E;
  referrer_context_class := @referrer_context_class E;
  get_context_class := @get_context_class E;
  issubclass_ctx := @issubclass_ctx E;
  issubclass_cmd := @issubclass_cmd E;
  issubclass_cmd_of := @issubclass_cmd_of E;
  issubclass_obj := @issubclass_obj E;
  repr_cls := @repr_cls E;
  classname_quals_from_ast_of := @classname_quals_from_ast_of E;
  classname_quals_from_name_of := @classname_quals_from_name_of E;
  get_refdict_for_class := @get_refdict_for_class E;
  get_refdicts := @get_refdicts E;
  get_key_for_name := @get_key_for_name E;
  get_key_for := @get_key_for E;
  get_default_base_name := @get_default_base_name E;
  get_schema_class_displayname := @get_schema_class_displayname E;
  generic := @generic E;
  get_subject := @get_subject E;
  get_shortname := @get_shortname E;
  get_verbosename := @get_verbosename E;
  children := @children E;
  ordered_descendants := @ordered_descendants E;
  allow_ref_propagation := @allow_ref_propagation E;
  add_classref := @add_classref E;
  del_classref := @del_classref E;
  cmd_apply := apply;
  in_deletion := @in_deletion E;
  inherit_fields := @inherit_fields E;
  super_classname_from_ast := @super_classname_from_ast E;
  ast_to_object_shell := @ast_to_object_shell E;
  super_create_begin := @super_create_begin E;
  super_create_innards := @super_create_innards E;
  super_alter_begin := @super_alter_begin E;
  super_rename_begin := @super_rename_begin E;
  _rename_cmd_from_ast := @_rename_cmd_from_ast E;
  _get_command_stack := @_get_command_stack E
|}.

(** The framework [F] with [innards] as the generic [_delete_innards]. *)
Definition with_delete_innards (F : Framework)
  (innards : Command -> Schema -> CommandContext -> Result (Schema * Command))
  : Framework :=
{|
  get_derived_name := @get_derived_name F;
  is_SchemaName := @is_SchemaName F;
  repr_obj := @repr_obj F;
  schema_get := @schema_get F;
  get_object := @get_object F;
  super_get_verbosename := @super_get_verbosename F;
  is_referenced_astnode := @is_referenced_astnode F;
  has_ddl_subcommand_AlterOwned := @has_ddl_subcommand_AlterOwned F;
  super_cmd_tree_from_ast := @super_cmd_tree_from_ast F;
  super_get_bases_for_ast := @super_get_bases_for_ast F;
  delta_apply := @delta_apply F;
  super_rebase_apply := @super_rebase_apply F;
  super_delete_innards := innards
|}.

Section Apply.

Context `{E : Env} `{F : Framework}.

(** Python's error for a recursion that goes too deep. *)
Definition RecursionError : Exception :=
  mkExc "RecursionError" "maximum recursion depth exceeded" None.


(** Modelled from the spec: [strictly the command-tree traversal order]:
    the commands of a list are applied in order, each to the schema of the
    one before, in the same context. *)
Fixpoint apply_all (apply : Command -> Schema -> CommandContext -> Result Schema)
  (cmds : list Command) (schema : Schema) (context : CommandContext) : Result Schema :=
  match cmds with
  | [] => Ok schema
  | cmd :: rest =>
    schema ← apply cmd schema context;
    apply_all apply rest schema context
  end.

(** Modelled from the spec: the generic innards of a command apply its
    nested commands. *)
Definition apply_innards (apply : Command -> Schema -> CommandContext -> Result Schema)
  (self : Command) (schema : Schema) (context : CommandContext)
  : Result (Schema * Command) :=
  schema ← apply_all apply (ops self) schema context;
  Ok (schema, self).

(** Modelled from the spec: [cmd.apply(schema, context)] for the commands
    a delete is made of: [a command tree is built and applied], [parent
    before children], with [the context stack, acquired for the duration of
    a nested apply], so that the [flags in a frame are visible only to
    commands nested under it].  A DeltaRoot applies its commands.  An
    AlterObject or DeleteObject command looks up its object and opens its
    frame; inside it an alter runs its [_alter_begin] and applies its nested
    commands, and a delete runs its [_delete_innards]: for a command of a
    [ReferencedInheritingObjectCommand] class these are the methods of this
    module, whose calls of [apply] and of the generic innards come back
    here.  The commands of the other kinds are the framework's [cmd_apply].
    [fuel] bounds the depth of the calls. *)
Fixpoint apply (fuel : nat) (cmd : Command) (schema : Schema) (context : CommandContext)
  : Result Schema :=
  match fuel with
  | 0 => Raise RecursionError
  | S fuel =>
    let referenced :=
      issubclass_cmd_of (cmd_class cmd) "ReferencedInheritingObjectCommand" in
    match cc_kind (cmd_class cmd) with
    | DeltaRoot => apply_all (apply fuel) (ops cmd) schema context
    | AlterObject =>
      scls ← get_object cmd schema context;
      let context := new_context cmd context scls in
      '(schema, cmd) ←
        (if referenced
         then AlterReferencedInheritingObject_alter_begin cmd scls schema context
         else super_alter_begin cmd scls schema context);
      apply_all (apply fuel) (ops cmd) schema context
    | DeleteObject =>
      scls ← get_object cmd schema context;
      let context := new_context cmd context scls in
      '(schema, _) ←
        (if referenced
         then _delete_innards (E := with_cmd_apply E (apply fuel))
                (F := with_delete_innards F (apply_innards (apply fuel)))
                cmd scls schema context
         else apply_innards (apply fuel) cmd schema context);
      Ok schema
    | _ => cmd_apply cmd schema context
    end
  end.



End Apply.

(** ** A small schema and a small framework to run the module on

    Two classes: object types, which are inheriting referrers, and their
    properties, which are referenced inheriting objects.  Type [A] has the
    children [B] and [D], [B] has the child [C]; [A], [B] and [C] carry a
    property [p], which [B] and [C] inherit. *)
Module Demo.

Fixpoint until_at (s : string) : string :=
  match s with
  | EmptyString => EmptyString
  | String c rest =>
    if Ascii.eqb c (Ascii.ascii_of_nat 64) then EmptyString else String c (until_at rest)
  end.

Definition shortname (n : Name) : Name := mkName (n_module n) (until_at (n_name n)).

Definition specialized (base referrer : Name) (quals : list string) : string :=
  n_name base +:+ "@" +:+ name_str referrer +:+ join EmptyString (map (fun q => "@" +:+ q) quals).

Definition source_of (schema : Schema) (o : Obj) : option Obj :=
  match get_field_value schema o "source" with
  | Some (VObj p) => Some p
  | _ => None
  end.

Definition children_of (schema : Schema) (o : Obj) : list Obj :=
  map fst (filter (fun p => o ∈ od_bases p.2) (map_to_list schema)).

Definition set_fields (d : ObjData) (fields : gmap string Value) : ObjData :=
  mkObjData (od_type d) (od_name d) (od_bases d) (od_is_owned d) (od_is_final d)
    (od_is_derived d) fields.

Definition set_is_owned (b : bool) (d : ObjData) : ObjData :=
  mkObjData (od_type d) (od_name d) (od_bases d) b (od_is_final d)
    (od_is_derived d) (od_fields d).

Definition set_bases (bases : list Obj) (d : ObjData) : ObjData :=
  mkObjData (od_type d) (od_name d) bases (od_is_owned d) (od_is_final d)
    (od_is_derived d) (od_fields d).

Definition coll_of (d : ObjData) (attr : string) : list (string * Obj) :=
  match od_fields d !! attr with
  | Some (VColl items) => items
  | _ => []
  end.

Definition add_ref (referrer : Obj) (schema : Schema) (attr : string) (ref : Obj) : Schema :=
  let key := n_name (shortname (get_name schema ref)) in
  alter (fun d => set_fields d (<[attr := VColl (coll_of d attr ++ [(key, ref)])]> (od_fields d)))
    referrer schema.

Definition del_ref (referrer : Obj) (schema : Schema) (attr : string) (refname : string)
  : Schema :=
  alter (fun d =>
    set_fields d
      (<[attr := VColl (filter (fun kv => kv.1 ≠ refname) (coll_of d attr))]> (od_fields d)))
    referrer schema.

(** The framework's begin of an alter: it assigns the command's
    [is_owned] attribute to the object. *)
Definition alter_begin (self : Command) (scls : Obj) (schema : Schema)
  (context : CommandContext) : Result (Schema * Command) :=
  match get_attribute_value self "is_owned" with
  | Some (VBool b) => Ok (alter (set_is_owned b) scls schema, self)
  | _ => Ok (schema, self)
  end.

(** The framework's begin of a create: the object gets the id 100. *)
Definition create_begin (self : Command) (schema : Schema) (context : CommandContext)
  : Result (Schema * Command * Obj) :=
  let d :=
    mkObjData (cc_mcls (cmd_class self)) (classname self)
      (objects_of (get_attribute_value self "bases"))
      (truthy (get_attribute_value self "is_owned")) false false ∅ in
  Ok (<[100%positive := d]> schema, self, 100%positive).

Definition is_property_class (cls : CmdClass) : bool := String.eqb (cc_mcls cls) "Property".

(** The command stack of an object: its command, under the alter of its
    referrer when it has one. *)
Definition command_stack (o : Obj) (schema : Schema) (context : CommandContext)
  (kind : CmdKind) : Command * Command :=
  let cmd := init_delta_command schema o kind in
  let delta := new_command (mkCmdClass DeltaRoot EmptyString) (mkName EmptyString EmptyString) in
  match source_of schema o with
  | Some referrer => (add delta (add (init_delta_command schema referrer AlterObject) cmd), cmd)
  | None => (add delta cmd, cmd)
  end.

#[local] Instance env (requires_explicit_overloaded : bool) : Env := {|
  get_specialized_name := specialized;
  shortname_from_fullname := shortname;
  is_qualified := fun s => bool_decide (is_Some (String.index 0 "::" s));
  Name_of_str := fun s => mkName EmptyString s;
  referrer_context_class := fun cls =>
    if is_property_class cls then Some "ObjectTypeCommandContext" else None;
  get_context_class := fun cls => cc_mcls cls +:+ "CommandContext";
  issubclass_ctx := String.eqb;
  issubclass_cmd := fun a b => bool_decide (a = b);
  issubclass_cmd_of := fun cls name =>
    if String.eqb name "QualifiedObjectCommand" then true
    else if String.eqb name "ReferencedInheritingObjectCommand" then is_property_class cls
    else if String.eqb name "CreateReferencedInheritingObject"
      then is_property_class cls && bool_decide (cc_kind cls = CreateObject)
    else if String.eqb name "RebaseReferencedInheritingObject"
      then is_property_class cls && bool_decide (cc_kind cls = RebaseInheritingObject)
    else false;
  issubclass_obj := fun t name =>
    if String.eqb name "InheritingObject" then true
    else if String.eqb name "ReferencedObject" then String.eqb t "Property"
    else false;
  repr_cls := fun cls => "<class '" +:+ cc_mcls cls +:+ "'>";
  classname_quals_from_ast_of := fun _ => None;
  classname_quals_from_name_of := fun _ => None;
  get_refdict_for_class := fun _ _ =>
    mkRefDict "properties" "source" requires_explicit_overloaded;
  get_refdicts := fun _ => [mkRefDict "properties" "source" requires_explicit_overloaded];
  get_key_for_name := fun _ _ _ n => n_name (shortname n);
  get_key_for := fun _ _ schema o => n_name (shortname (get_name schema o));
  get_default_base_name := fun t =>
    if String.eqb t "Property" then Some (mkName "std" "property") else None;
  get_schema_class_displayname := fun t => "property";
  generic := fun schema o => bool_decide (source_of schema o = None);
  get_subject := source_of;
  get_shortname := fun schema o => shortname (get_name schema o);
  get_verbosename := fun schema o with_parent => "'" +:+ name_str (get_name schema o) +:+ "'";
  children := children_of;
  ordered_descendants := fun schema o =>
    children_of schema o ++ flat_map (children_of schema) (children_of schema o);
  allow_ref_propagation := fun schema _ _ child => negb (get_is_final schema child);
  add_classref := add_ref;
  del_classref := del_ref;
  cmd_apply := fun _ schema _ => Ok schema;
  in_deletion := fun context offset =>
    existsb (fun f => bool_decide (cc_kind (cmd_class (f_op f)) = DeleteObject))
      (take (length (stack context) - offset) (stack context));
  inherit_fields := fun self schema _ _ _ => Ok (schema, self);
  super_classname_from_ast := fun _ _ astnode _ =>
    mkName (default "default" (or_module astnode)) (or_name astnode);
  ast_to_object_shell := fun astnode _ _ _ =>
    mkName (default "default" (or_module astnode)) (or_name astnode);
  super_create_begin := create_begin;
  super_create_innards := fun self schema _ => Ok (schema, self);
  super_alter_begin := alter_begin;
  super_rename_begin := fun self _ schema _ => Ok (schema, self);
  _rename_cmd_from_ast := fun cls _ astnode context =>
    set_attribute_value
      (new_command cls (from_option (fun f => classname (f_op f)) (mkName EmptyString EmptyString)
                          (last (stack context))))
      "new_name" (VName (mkName EmptyString (or_name astnode)));
  _get_command_stack := command_stack
|}.

Definition T_A : Obj := 1%positive.
Definition T_B : Obj := 2%positive.
Definition T_C : Obj := 3%positive.
Definition T_D : Obj := 4%positive.
Definition std_property : Obj := 10%positive.
Definition p_generic : Obj := 11%positive.
Definition p_A : Obj := 12%positive.
Definition p_B : Obj := 13%positive.
Definition p_C : Obj := 14%positive.

Definition object_type (name : string) (bases : list Obj) (props : list (string * Obj))
  : ObjData :=
  mkObjData "ObjectType" (mkName "default" name) bases false false false
    {[ "properties" := VColl props ]}.

Definition property (name : string) (bases : list Obj) (owned : bool) (source : option Obj)
  : ObjData :=
  mkObjData "Property" (mkName "default" name) bases owned false false
    (from_option (fun s => {[ "source" := VObj s ]}) ∅ source).

(** [B.p] is owned when [b_owned]; its bases are [A.p] and the default
    base of properties. *)
Definition schema0 (b_owned : bool) : Schema :=
  list_to_map [
    (T_A, object_type "A" [] [("p", p_A)]);
    (T_B, object_type "B" [T_A] [("p", p_B)]);
    (T_C, object_type "C" [T_B] [("p", p_C)]);
    (T_D, object_type "D" [T_A] []);
    (std_property, mkObjData "Property" (mkName "std" "property") [] false false false ∅);
    (p_generic, property "p" [std_property] false None);
    (p_A, property "p@default::A" [p_generic] true (Some T_A));
    (p_B, property "p@default::B" [p_A; std_property] b_owned (Some T_B));
    (p_C, property "p@default::C" [p_B] false (Some T_C))
  ].

Definition context0 : CommandContext := CommandContext_init [] false.

(** The frame of [ALTER TYPE t] on top of [context]. *)
Definition in_type (schema : Schema) (t : Obj) (context : CommandContext) : CommandContext :=
  new_context (H := env false) (init_delta_command schema t AlterObject) context t.

(** The command [kind] on the property [o]. *)
Definition on_property (schema : Schema) (o : Obj) (kind : CmdKind) : Command :=
  init_delta_command schema o kind.

(** The frame [in_type] opens. *)
Definition type_frame (schema : Schema) (t : Obj) : Frame :=
  mkFrame "ObjectTypeCommandContext" (init_delta_command schema t AlterObject) t.

(** [CREATE PROPERTY p] in [B], with the generic [p] as its base. *)
Definition create_p_in_B : Command :=
  set_attribute_value
    (new_command (mkCmdClass CreateObject "Property") (mkName "default" "p@default::B"))
    "bases" (VObjList [p_generic]).

(** A declarative context, as for a schema written in SDL. *)
Definition declarative0 : CommandContext :=
  mkContext None [] [] false true false true false ∅.

(** A context in which [A.p] is being renamed. *)
Definition renaming_p_A : CommandContext :=
  mkContext None [] [] false false false true false {[ p_A ]}.

(** The context of the rename of [B.p] that the rename of [A.p]
    propagated: inside [ALTER TYPE B], inside the alter of [B.p] marked
    [ref_op_propagated]. *)
Definition propagated_to_p_B (schema : Schema) : CommandContext :=
  new_context (H := env false)
    (set_ref_op_propagated (on_property schema p_B AlterObject) true)
    (in_type schema T_B renaming_p_A) p_B.

Definition q_A : Obj := 15%positive.
Definition q_B : Obj := 16%positive.
Definition r_B : Obj := 17%positive.

(** [schema0] with sub-refs: [A.p] carries [q]; [B.p] carries an owned [q],
    inherited from the [q] of [A.p], and an owned [r] of its own. *)
Definition schema_sub : Schema :=
  <[p_B := mkObjData "Property" (mkName "default" "p@default::B") [p_A; std_property]
             true false false
             {[ "source" := VObj T_B; "properties" := VColl [("q", q_B); ("r", r_B)] ]}]>
  (<[q_A := property "q@default::p@default::A" [] true (Some p_A)]>
  (<[q_B := property "q@default::p@default::B" [q_A] true (Some p_B)]>
  (<[r_B := property "r@default::p@default::B" [] true (Some p_B)]> (schema0 true)))).

(** [schema_sub] once the object [o] has lost [is_owned]. *)
Definition unowned (o : Obj) : Schema := alter (set_is_owned false) o schema_sub.

(** [ALTER PROPERTY p DROP OWNED] on the property [o]. *)
Definition drop_owned (o : Obj) : Command :=
  set_attribute_value (on_property schema_sub o AlterOwned) "is_owned" (VBool false).

(** [schema0] with an owned [B.p], once [DROP PROPERTY p] in [A] has
    removed [p] from the properties of [A]. *)
Definition dropped_p_A : Schema := del_ref T_A (schema0 true) "properties" "p".

(** The class of the delete commands on properties, whose referrer context
    class is the context class of the commands on types. *)
Definition delete_property : CmdClass := mkCmdClass DeleteObject "Property".



(** The object of a name. *)
Definition object_named (schema : Schema) (name : Name) : Result Obj :=
  match filter (fun p => od_name p.2 = name) (map_to_list schema) with
  | p :: _ => Ok p.1
  | [] => Raise (mkExc "InvalidReferenceError" (name_str name) None)
  end.

#[local] Instance framework : Framework := {|
  get_derived_name := fun schema self referrer quals _ _ =>
    mkName (n_module (get_name schema referrer))
      (specialized (shortname (get_name schema self)) (get_name schema referrer) quals);
  is_SchemaName := fun _ => true;
  repr_obj := fun _ => "<Property>";
  schema_get := object_named;
  get_object := fun cmd schema _ => object_named schema (classname cmd);
  super_get_verbosename := fun schema o with_parent =>
    (if String.eqb (type_of schema o) "Property" then "property '" else "object type '")
      +:+ n_name (shortname (get_name schema o)) +:+ "'";
  is_referenced_astnode := fun cls _ => is_property_class cls;
  has_ddl_subcommand_AlterOwned := fun _ => false;
  super_cmd_tree_from_ast := fun cls _ astnode _ =>
    Ok (new_command cls
          (mkName (default "default" (or_module (ast_name astnode)))
             (or_name (ast_name astnode))));
  super_get_bases_for_ast := fun _ _ _ bases => bases;
  delta_apply := fun _ schema _ _ => Ok schema;
  super_rebase_apply := fun self schema _ => Ok (schema, self);
  super_delete_innards := fun self schema _ => Ok (schema, self)
|}.

(** A canonical context, as for the replay of a migration. *)
Definition canonical0 : CommandContext :=
  mkContext None [] [] true false false true false ∅.

End Demo.

(** * Properties *)

Section Properties.

Context `{Env}.

(** ** Shared lemmas *)

Lemma find_rev_none {A} (p : A -> bool) (l : list A) :
  find p (rev l) = None <-> Forall (fun x => p x = false) l.
Proof.
  rewrite Forall_forall. split.
  - intros Hf x Hx. apply list_elem_of_In, in_rev in Hx.
    exact (find_none p _ Hf x Hx).
  - intros Hall. destruct (find p (rev l)) as [x|] eqn:Hf; [|done].
    apply find_some in Hf as [Hin Hp].
    apply in_rev, list_elem_of_In, Hall in Hin. congruence.
Qed.

Lemma find_rev_innermost {A} (p : A -> bool) (outer inner : list A) (x : A) :
  p x = true -> Forall (fun y => p y = false) inner ->
  find p (rev (outer ++ x :: inner)) = Some x.
Proof.
  intros Hx Hin. rewrite rev_app_distr. simpl. rewrite <- app_assoc. simpl.
  apply find_rev_none in Hin. revert Hin.
  induction (rev inner) as [|y l IH]; simpl.
  - by rewrite Hx.
  - destruct (p y); [done|]. exact IH.
Qed.

Lemma find_rev_some {A} (p : A -> bool) (l : list A) (x : A) :
  find p (rev l) = Some x ->
  exists outer inner, l = outer ++ x :: inner /\ p x = true
                      /\ Forall (fun y => p y = false) inner.
Proof.
  induction l as [|y l IH] using rev_ind; [done|].
  rewrite rev_app_distr. simpl. destruct (p y) eqn:Hy.
  - intros [= <-]. exists l, []. by repeat split.
  - intros Hf. destruct (IH Hf) as (outer & inner & -> & Hx & Hin).
    exists outer, (inner ++ [y]). rewrite <- app_assoc. repeat split; [done|].
    apply Forall_app. split; [done|]. by constructor.
Qed.

(** ** Referrer context lookup *)

(** C8, as amended: when no frame of the context stack is an instance of
    the referrer context class the command class declares,
    [get_referrer_context] returns [None] and
    [get_referrer_context_or_die] raises the built-in [RuntimeError]
    ("no referrer context for ..."); when a frame matches, both return the
    innermost matching frame. *)
Theorem get_referrer_context_innermost (cls : CmdClass) (ctxcls : PyClass)
  (context : CommandContext) :
  referrer_context_class cls = Some ctxcls ->
  (Forall (fun f => issubclass_ctx (f_class f) ctxcls = false) (stack context) ->
     get_referrer_context cls context = Ok None
     /\ get_referrer_context_or_die cls context
        = Raise (RuntimeError ("no referrer context for " +:+ repr_cls cls)))
  /\ (forall outer f inner,
        stack context = outer ++ f :: inner ->
        issubclass_ctx (f_class f) ctxcls = true ->
        Forall (fun g => issubclass_ctx (f_class g) ctxcls = false) inner ->
        get_referrer_context cls context = Ok (Some f)
        /\ get_referrer_context_or_die cls context = Ok f)
  /\ (forall f, get_referrer_context cls context = Ok (Some f) ->
        exists outer inner,
          stack context = outer ++ f :: inner
          /\ issubclass_ctx (f_class f) ctxcls = true
          /\ Forall (fun g => issubclass_ctx (f_class g) ctxcls = false) inner).
Proof.
  intros Hcls.
  unfold get_referrer_context_or_die, get_referrer_context,
    get_referrer_context_class, context_get.
  rewrite Hcls. simpl. split; [|split].
  - intros Hnone. apply find_rev_none in Hnone. by rewrite Hnone.
  - intros outer f inner Hstack Hf Hinner. rewrite Hstack.
    by rewrite (find_rev_innermost _ outer inner f Hf Hinner).
  - intros f [= Hfind]. by apply find_rev_some in Hfind.
Qed.

(** ** Implicit bases *)

(** The implicit bases are the refs the bases of the referrer contribute,
    in the order of the referrer's bases, with no deduplication. *)
Lemma _get_implicit_ref_bases_omap (cls : CmdClass) (schema : Schema)
  (context : CommandContext)
  (referrer : Obj) (referrer_field : string) (fq_name : Name) :
  _get_implicit_ref_bases cls schema context referrer referrer_field fq_name
  = omap (implicit_ref_in_base cls schema referrer referrer_field fq_name)
      (get_bases schema referrer).
Proof.
  unfold _get_implicit_ref_bases.
  induction (get_bases schema referrer) as [|b l IH]; [done|].
  simpl. rewrite IH. unfold implicit_ref_in_base at 2.
  destruct (coll_get _ _) as [found|]; [|done].
  by destruct (get_is_final schema found).
Qed.

Lemma not_truthy_objects_of (v : option Value) :
  truthy v = false -> objects_of v = [].
Proof.
  destruct v as [[b|n|o|n c|l|l]|]; simpl; try done.
  rewrite negb_false_iff, bool_decide_eq_true. done.
Qed.

(** C1: a create of a ref inside the context of an inheriting referrer,
    not canonical: when there are implicit bases, the [bases] attribute
    becomes the implicit bases, in the order of the referrer's bases,
    followed by the bases set before that are not implicit; when there are
    none, the command is left as it is.  The command with that attribute is
    the one handed to the generic create and then validated. *)
Theorem create_begin_sets_implicit_bases (self : Command) (schema : Schema)
  (context : CommandContext) (referrer_ctx : Frame) :
  get_referrer_context (cmd_class self) context = Ok (Some referrer_ctx) ->
  canonical context = false ->
  issubclass_obj (type_of schema (f_scls referrer_ctx)) "InheritingObject" = true ->
  let referrer := f_scls referrer_ctx in
  let refdict :=
    get_refdict_for_class (get_schema_metaclass (f_op referrer_ctx))
      (get_schema_metaclass self) in
  let implicit_bases :=
    _get_implicit_ref_bases (cmd_class self) schema context referrer (rd_attr refdict)
      (classname self) in
  let self' := _create_begin_bases self (Some referrer_ctx) schema context in
  implicit_bases
    = omap (implicit_ref_in_base (cmd_class self) schema referrer (rd_attr refdict)
              (classname self))
        (get_bases schema referrer)
  /\ (implicit_bases <> [] ->
      get_attribute_value self' "bases"
      = Some (VObjList
                (implicit_bases
                   ++ filter (fun b => b ∉ implicit_bases)
                        (objects_of (get_attribute_value self "bases")))))
  /\ (implicit_bases = [] -> self' = self)
  /\ _create_begin self schema context
     = ('(schema1, self1, scls) ← super_create_begin self' schema context;
        _ ← _validate self1 scls schema1 context;
        Ok (schema1, self1, scls)).
Proof.
  intros Hctx Hcanon Hinh referrer refdict implicit_bases self'.
  split; [apply _get_implicit_ref_bases_omap|].
  assert (Hself' :
    self' = if negb (bool_decide (implicit_bases = []))
            then set_attribute_value self "bases"
                   (VObjList
                      (if truthy (get_attribute_value self "bases")
                       then implicit_bases
                              ++ filter (fun b => b ∉ implicit_bases)
                                   (objects_of (get_attribute_value self "bases"))
                       else implicit_bases))
            else self).
  { unfold self', _create_begin_bases. rewrite Hcanon. simpl. by rewrite Hinh. }
  split; [|split].
  - intros Hne. rewrite Hself'.
    rewrite bool_decide_eq_false_2 by done. simpl.
    unfold get_attribute_value at 1, set_attribute_value. simpl.
    rewrite lookup_insert_eq.
    destruct (truthy (get_attribute_value self "bases")) eqn:Ht; [done|].
    rewrite (not_truthy_objects_of _ Ht). simpl. by rewrite app_nil_r.
  - intros Hnil. rewrite Hself'. by rewrite bool_decide_eq_true_2.
  - unfold _create_begin. rewrite Hctx. cbn [mbind Result_bind].
    change (_create_begin_bases self (Some referrer_ctx) schema context) with self'.
    destruct (super_create_begin self' schema context) as [[[schema1 self1] scls]|e];
      cbn [mbind Result_bind]; [|reflexivity].
    by rewrite Hcanon.
Qed.

(** ** Validation of [overloaded] *)

Lemma _validate_ancestry_ok (schema : Schema) (l : list Obj) :
  Forall (fun b => is_Some (get_referrer schema b)) l ->
  _validate_ancestry schema l = Ok (omap (get_referrer schema) l).
Proof.
  induction 1 as [|b l [r Hr] _ IH]; [done|].
  simpl. rewrite Hr, IH. done.
Qed.

(** C7: validation of an owned ref in declarative mode, inside a referrer
    context.  With a base that is not generic, a RefDict that requires
    [overloaded] and no [declared_overloaded], it raises
    SchemaDefinitionError naming the ancestors; with no such base and
    [declared_overloaded], it raises SchemaDefinitionError "cannot be
    declared `overloaded`"; in every other combination it raises
    nothing. *)
Theorem validate_overloaded (self : Command) (scls : Obj) (schema : Schema)
  (context : CommandContext) (referrer_ctx : Frame) :
  get_referrer_context_or_die (cmd_class self) context = Ok referrer_ctx ->
  declarative context = true ->
  get_is_owned schema scls = true ->
  let refdict :=
    get_refdict_for_class (get_schema_metaclass (f_op referrer_ctx))
      (get_schema_metaclass self) in
  let implicit_bases := get_implicit_bases schema scls in
  let declared := truthy (get_attribute_value self "declared_overloaded") in
  let vn := get_verbosename schema scls true in
  Forall (fun b => is_Some (get_referrer schema b)) implicit_bases ->
  (implicit_bases <> [] ->
   rd_requires_explicit_overloaded refdict = true ->
   declared = false ->
   _validate self scls schema context
   = Raise (SchemaDefinitionError
       (vn +:+ " must be declared using the `overloaded` keyword because "
           +:+ "it is defined in the following ancestor(s): "
           +:+ join ", "
                 (map (fun a => name_str (get_shortname schema a))
                    (omap (get_referrer schema) implicit_bases)))
       None))
  /\ (implicit_bases = [] ->
      declared = true ->
      _validate self scls schema context
      = Raise (SchemaDefinitionError
          (vn +:+ ": cannot be declared `overloaded` as there are no "
              +:+ "ancestors defining it.")
          None))
  /\ (~ (implicit_bases <> [] /\ rd_requires_explicit_overloaded refdict = true
         /\ declared = false) ->
      ~ (implicit_bases = [] /\ declared = true) ->
      _validate self scls schema context = Ok ()).
Proof.
  intros Hctx Hdecl Howned refdict implicit_bases declared vn Hrefs.
  assert (Hval :
    _validate self scls schema context
    = if negb (bool_decide (implicit_bases = []))
         && rd_requires_explicit_overloaded refdict && negb declared
      then
        ancestry ← _validate_ancestry schema implicit_bases;
        Raise (SchemaDefinitionError
          (vn +:+ " must be declared using the `overloaded` keyword because "
              +:+ "it is defined in the following ancestor(s): "
              +:+ join ", " (map (fun a => name_str (get_shortname schema a)) ancestry))
          None)
      else if bool_decide (implicit_bases = []) && declared
      then
        Raise (SchemaDefinitionError
          (vn +:+ ": cannot be declared `overloaded` as there are no "
              +:+ "ancestors defining it.")
          None)
      else Ok ()).
  { unfold _validate. rewrite Hctx. cbn [mbind Result_bind].
    by rewrite Hdecl, Howned. }
  rewrite Hval. split; [|split].
  - intros Hne Hreq Hdeclared.
    rewrite bool_decide_eq_false_2, Hreq, Hdeclared by done.
    cbn [negb andb]. by rewrite (_validate_ancestry_ok _ _ Hrefs).
  - intros Hnil Hdeclared.
    rewrite bool_decide_eq_true_2, Hdeclared by done. done.
  - intros Hno1 Hno2.
    destruct (bool_decide (implicit_bases = [])) eqn:Hb.
    + apply bool_decide_eq_true in Hb. cbn [negb andb].
      destruct declared; [|done]. by destruct Hno2.
    + apply bool_decide_eq_false in Hb. cbn [negb andb].
      destruct (rd_requires_explicit_overloaded refdict); [|done].
      destruct declared; [done|]. by destruct Hno1.
Qed.

(** ** The base delta of an implicit rebase *)

(** C10: the explicit bases [get_ref_implicit_base_delta] keeps are exactly
    the current bases that are generic and not named as the default base of
    the class; the target of the delta is the implicit bases followed by
    them; so a current base that is the default base, and has no namesake
    among the implicit bases, is among the removed bases of the delta. *)
Theorem implicit_base_delta_drops_default_base (schema : Schema)
  (context : CommandContext) (refcls : Obj) (implicit_bases : list Obj) :
  let child_bases := get_bases schema refcls in
  let default_base := get_default_base_name (type_of schema refcls) in
  let explicit_bases := explicit_bases_of schema refcls in
  explicit_bases
    = filter (fun b => generic schema b = true /\ Some (get_name schema b) <> default_base)
        child_bases
  /\ (forall b, b ∈ explicit_bases <->
                b ∈ child_bases /\ generic schema b = true
                /\ Some (get_name schema b) <> default_base)
  /\ get_ref_implicit_base_delta schema context refcls implicit_bases
     = delta_bases (map (get_name schema) child_bases)
         (map (get_name schema) (implicit_bases ++ explicit_bases))
  /\ (forall b, b ∈ child_bases ->
                Some (get_name schema b) = default_base ->
                get_name schema b ∉ map (get_name schema) implicit_bases ->
                (b ∉ explicit_bases)
                /\ (get_name schema b
                      ∈ (get_ref_implicit_base_delta schema context refcls implicit_bases).1)).
Proof.
  intros child_bases default_base explicit_bases.
  assert (Hiff : forall b, b ∈ explicit_bases <->
                   b ∈ child_bases /\ generic schema b = true
                   /\ Some (get_name schema b) <> default_base).
  { intros b. unfold explicit_bases, explicit_bases_of.
    rewrite list_elem_of_filter. fold child_bases default_base. tauto. }
  split; [done|]. split; [exact Hiff|]. split; [done|].
  intros b Hin Hdef Himp. split.
  - intros Hex. apply Hiff in Hex. tauto.
  - unfold get_ref_implicit_base_delta, delta_bases. simpl.
    apply list_elem_of_filter. split.
    + rewrite map_app. intros Hnew. apply elem_of_app in Hnew as [Hnew|Hnew]; [done|].
      apply list_elem_of_fmap in Hnew as (e & Hname & He).
      apply Hiff in He as (_ & _ & Hne). congruence.
    + apply list_elem_of_fmap. by exists b.
Qed.

(** ** Deletion of an inherited ref *)

Lemma _delete_ref_parent_names_ok (schema : Schema) (backref_attr : string)
  (bases parents : list Obj) :
  Forall2 (fun b p => get_field_value schema b backref_attr = Some (VObj p)) bases parents ->
  _delete_ref_parent_names schema backref_attr bases
  = Ok (map (fun p => get_verbosename schema p true) parents).
Proof.
  induction 1 as [|b p bases parents Hb _ IH]; [done|].
  simpl. by rewrite Hb, IH.
Qed.

Lemma elem_of_delete_ref_remaining_bases (self : Command) (schema : Schema)
  (context : CommandContext) (referrer : Obj) (attr : string) (self_name : Name)
  (b : Obj) :
  b ∈ _delete_ref_remaining_bases self schema context referrer attr self_name
  <-> b ∈ _get_implicit_ref_bases (cmd_class self) schema context referrer attr self_name
      /\ ~ (exists ctx, ctx ∈ stack context
                        /\ issubclass_cmd (cmd_class (f_op ctx)) (cmd_class self) = true
                        /\ f_scls ctx = b).
Proof.
  unfold _delete_ref_remaining_bases.
  rewrite elem_of_elements, elem_of_difference, !elem_of_list_to_set.
  rewrite list_elem_of_fmap.
  split; intros [Himp Hdel]; (split; [done|]).
  - intros (ctx & Hctx & Hsub & Hscls). apply Hdel. exists ctx.
    split; [done|]. apply list_elem_of_filter. done.
  - intros (ctx & Hscls & Hctx). apply list_elem_of_filter in Hctx as [Hsub Hctx].
    apply Hdel. by exists ctx.
Qed.

(** C4: a delete of a ref of an inheriting referrer, not canonical, not
    inside a larger deletion and with dependency verification on.  The
    bases that remain are the implicit bases of the ref that no delete
    command of the same class on the context stack works on; when some
    remain, SchemaError "cannot drop inherited ..." is raised, its details
    listing the referrers of those bases; when none remains, the deletion
    goes on to the children of the referrer. *)
Theorem delete_ref_inherited (self : Command) (scls : Obj) (schema : Schema)
  (context : CommandContext) (referrer : Obj) :
  let referrer_class := type_of schema referrer in
  let refdict := get_refdict_for_class referrer_class (type_of schema scls) in
  let self_name := get_name schema scls in
  let schema1 :=
    del_classref referrer schema (rd_attr refdict)
      (get_key_for referrer_class (rd_attr refdict) schema scls) in
  let remaining :=
    _delete_ref_remaining_bases self schema1 context referrer (rd_attr refdict)
      self_name in
  let vn := get_verbosename schema1 scls true in
  issubclass_obj referrer_class "InheritingObject" = true ->
  canonical context = false ->
  in_deletion context 1 = false ->
  disable_dep_verification context = false ->
  (forall b, b ∈ remaining <->
     b ∈ _get_implicit_ref_bases (cmd_class self) schema1 context referrer
           (rd_attr refdict) self_name
     /\ ~ (exists ctx, ctx ∈ stack context
                       /\ issubclass_cmd (cmd_class (f_op ctx)) (cmd_class self) = true
                       /\ f_scls ctx = b))
  /\ (remaining <> [] ->
      forall parents,
        Forall2 (fun b p =>
                   get_field_value schema1 b (rd_backref_attr refdict) = Some (VObj p))
          remaining parents ->
        _delete_ref self scls schema context referrer
        = Raise (SchemaError
            ("cannot drop inherited " +:+ vn)
            (Some (vn +:+ " is inherited from:" +:+ nl +:+ "- "
                      +:+ join (nl +:+ "- ")
                            (map (fun p => get_verbosename schema1 p true) parents)))))
  /\ (remaining = [] ->
      _delete_ref self scls schema context referrer
      = _delete_ref_children self schema1 context referrer_class refdict self_name
          (children schema1 referrer)).
Proof.
  intros referrer_class refdict self_name schema1 remaining vn Hinh Hcanon Hdel Hdep.
  split; [intros b; apply elem_of_delete_ref_remaining_bases|].
  assert (Hdelete :
    _delete_ref self scls schema context referrer
    = (_ ← _delete_ref_verify self scls schema1 context referrer refdict self_name;
       _delete_ref_children self schema1 context referrer_class refdict self_name
         (children schema1 referrer))).
  { unfold _delete_ref. fold referrer_class refdict self_name schema1.
    by rewrite Hinh, Hcanon. }
  assert (Hverify :
    _delete_ref_verify self scls schema1 context referrer refdict self_name
    = if negb (bool_decide (remaining = [])) then
        parents ← _delete_ref_parent_names schema1 (rd_backref_attr refdict) remaining;
        Raise (SchemaError
          ("cannot drop inherited " +:+ vn)
          (Some (vn +:+ " is inherited from:" +:+ nl +:+ "- "
                    +:+ join (nl +:+ "- ") parents)))
      else Ok ()).
  { unfold _delete_ref_verify. by rewrite Hdel, Hdep. }
  rewrite Hdelete, Hverify. split.
  - intros Hne parents Hparents.
    rewrite bool_decide_eq_false_2 by done. cbn [negb].
    by rewrite (_delete_ref_parent_names_ok _ _ _ _ Hparents).
  - intros Hnil. by rewrite bool_decide_eq_true_2.
Qed.

(** ** DROP OWNED *)

Lemma add_all_app (cmd : Command) (l1 l2 : list Command) :
  add_all cmd (l1 ++ l2) = add_all (add_all cmd l1) l2.
Proof. apply fold_left_app. Qed.

Lemma ops_add_all (cmd : Command) (subs : list Command) :
  ops (add_all cmd subs) = ops cmd ++ subs.
Proof.
  unfold add_all. revert cmd. induction subs as [|c subs IH]; intros cmd; simpl.
  - by rewrite app_nil_r.
  - rewrite IH. simpl. by rewrite <- app_assoc.
Qed.

Lemma _drop_owned_refs_loop_sound (context : CommandContext) (refs : list Obj) :
  forall (self : Command) (schema schema' : Schema) (self' : Command),
    _drop_owned_refs_loop self schema context refs = Ok (schema', self') ->
    exists cmds,
      drop_owned_refs_run context schema refs cmds schema'
      /\ self' = add_all self cmds.
Proof.
  induction refs as [|ref rest IH]; intros self schema schema' self'; simpl.
  - intros [= <- <-]. exists []. split; [constructor|done].
  - destruct (bool_decide (get_implicit_bases schema ref = [])) eqn:Himp;
      [apply bool_decide_eq_true in Himp|apply bool_decide_eq_false in Himp];
      cbn [negb andb].
    + intros Hloop. apply IH in Hloop as (cmds & Hrun & ->).
      eexists (_ :: cmds). split; [|done].
      apply drop_owned_refs_delete; [by left|done].
    + destruct (get_is_owned schema ref) eqn:Hown.
      * fold (alter_owned_false schema ref).
        destruct (cmd_apply (alter_owned_false schema ref) schema context)
          as [schema1|e] eqn:Happly; cbn [mbind Result_bind]; [|done].
        intros Hloop. apply IH in Hloop as (cmds & Hrun & ->).
        eexists (_ :: cmds). split; [|done].
        by eapply drop_owned_refs_unown.
      * intros Hloop. apply IH in Hloop as (cmds & Hrun & ->).
        eexists (_ :: cmds). split; [|done].
        apply drop_owned_refs_delete; [by right|done].
Qed.

Lemma _drop_owned_refs_loop_complete (context : CommandContext)
  (schema : Schema) (refs : list Obj) (cmds : list Command) (schema' : Schema) :
  drop_owned_refs_run context schema refs cmds schema' ->
  forall self : Command,
    _drop_owned_refs_loop self schema context refs = Ok (schema', add_all self cmds).
Proof.
  induction 1 as [schema
                 |schema schema1 schema' ref rest cmds Himp Hown Happly _ IH
                 |schema schema' ref rest cmds Hnot _ IH];
    intros self; simpl.
  - done.
  - rewrite bool_decide_eq_false_2, Hown by done. cbn [negb andb].
    fold (alter_owned_false schema ref). rewrite Happly. cbn [mbind Result_bind].
    apply IH.
  - destruct Hnot as [Hnil|Hown].
    + rewrite bool_decide_eq_true_2 by done. cbn [negb andb]. apply IH.
    + rewrite Hown, andb_false_r. apply IH.
Qed.

Lemma _alter_begin_refdicts_sound (context : CommandContext) (scls : Obj)
  (refdicts : list RefDict) :
  forall (self : Command) (schema schema' : Schema) (self' : Command),
    _alter_begin_refdicts self scls schema context refdicts = Ok (schema', self') ->
    exists cmds,
      drop_owned_run context scls schema refdicts cmds schema'
      /\ self' = add_all self cmds.
Proof.
  induction refdicts as [|refdict rest IH]; intros self schema schema' self'; simpl.
  - intros [= <- <-]. exists []. split; [constructor|done].
  - unfold _drop_owned_refs.
    destruct (_drop_owned_refs_loop self schema context _) as [[schema1 self1]|e] eqn:Hloop;
      cbn [mbind Result_bind]; [|done].
    apply _drop_owned_refs_loop_sound in Hloop as (cmds1 & Hrun1 & ->).
    intros Hrest. apply IH in Hrest as (cmds & Hrun & ->).
    exists (cmds1 ++ cmds). split.
    + by eapply drop_owned_cons.
    + by rewrite add_all_app.
Qed.

Lemma _alter_begin_refdicts_complete (context : CommandContext) (scls : Obj)
  (schema : Schema) (refdicts : list RefDict) (cmds : list Command) (schema' : Schema) :
  drop_owned_run context scls schema refdicts cmds schema' ->
  forall self : Command,
    _alter_begin_refdicts self scls schema context refdicts
    = Ok (schema', add_all self cmds).
Proof.
  induction 1 as [schema|schema schema1 schema' refdict rest cmds1 cmds Hrun1 _ IH];
    intros self; simpl.
  - done.
  - unfold _drop_owned_refs.
    rewrite (_drop_owned_refs_loop_complete _ _ _ _ _ Hrun1). cbn [mbind Result_bind].
    rewrite IH. by rewrite add_all_app.
Qed.

Lemma _alter_begin_refdicts_run (context : CommandContext) (scls : Obj)
  (refdicts : list RefDict) (self : Command) (schema schema' : Schema)
  (self' : Command) :
  _alter_begin_refdicts self scls schema context refdicts = Ok (schema', self')
  <-> exists cmds,
        drop_owned_run context scls schema refdicts cmds schema'
        /\ self' = add_all self cmds.
Proof.
  split; [apply _alter_begin_refdicts_sound|].
  intros (cmds & Hrun & ->). by apply _alter_begin_refdicts_complete.
Qed.

(** C6: an AlterOwned that takes [is_owned] from true to false, not
    canonical.  Without implicit bases it raises InvalidDefinitionError
    "cannot drop owned ..., as it is not inherited, use DROP ... instead".
    Otherwise it inherits the fields from the bases of the ref with
    [ignore_local] set and then, for every RefDict of the class of the
    ref, handles each sub-ref: one that is inherited and owned gets a
    nested AlterOwned(false), any other one a DeleteObject. *)
Theorem alter_owned_drop_owned (self : Command) (scls : Obj) (schema : Schema)
  (context : CommandContext) (schema1 : Schema) (self1 : Command) :
  super_alter_begin self scls schema context = Ok (schema1, self1) ->
  get_is_owned schema scls = true ->
  get_is_owned schema1 scls = false ->
  canonical context = false ->
  (get_implicit_bases schema1 scls = [] ->
   _alter_begin self scls schema context
   = Raise (InvalidDefinitionError
       ("cannot drop owned " +:+ get_verbosename schema1 scls true
          +:+ ", as it is not inherited, " +:+ "use DROP "
          +:+ upper (get_schema_class_displayname (type_of schema1 scls))
          +:+ " instead")))
  /\ (get_implicit_bases schema1 scls <> [] ->
      (forall e,
         inherit_fields self1 schema1 context (get_bases schema1 scls) true = Raise e ->
         _alter_begin self scls schema context = Raise e)
      /\ (forall schema2 self2,
            inherit_fields self1 schema1 context (get_bases schema1 scls) true
              = Ok (schema2, self2) ->
            forall schema' self',
              _alter_begin self scls schema context = Ok (schema', self')
              <-> exists cmds,
                    drop_owned_run context scls schema2
                      (get_refdicts (type_of schema2 scls)) cmds schema'
                    /\ self' = add_all self2 cmds)).
Proof.
  intros Hsuper Hwas Hnow Hcanon.
  assert (Hbegin :
    _alter_begin self scls schema context
    = if bool_decide (get_implicit_bases schema1 scls = []) then
        Raise (InvalidDefinitionError
          ("cannot drop owned " +:+ get_verbosename schema1 scls true
             +:+ ", as it is not inherited, " +:+ "use DROP "
             +:+ upper (get_schema_class_displayname (type_of schema1 scls))
             +:+ " instead"))
      else
        '(schema2, self2) ←
          inherit_fields self1 schema1 context (get_bases schema1 scls) true;
        _alter_begin_refdicts self2 scls schema2 context
          (get_refdicts (type_of schema2 scls))).
  { unfold _alter_begin. rewrite Hsuper. cbn [mbind Result_bind].
    by rewrite Hwas, Hnow, Hcanon. }
  rewrite Hbegin. split.
  - intros Hnil. by rewrite bool_decide_eq_true_2.
  - intros Hne. rewrite bool_decide_eq_false_2 by done. split.
    + intros e ->. done.
    + intros schema2 self2 ->. cbn [mbind Result_bind].
      intros schema' self'. apply _alter_begin_refdicts_run.
Qed.

(** ** Rename of an inherited ref *)

Lemma elem_of_non_renamed_bases_of (schema : Schema) (context : CommandContext)
  (scls b : Obj) :
  b ∈ non_renamed_bases_of schema context scls
  <-> b ∈ get_implicit_bases schema scls /\ b ∉ renamed_objs context.
Proof.
  unfold non_renamed_bases_of.
  by rewrite elem_of_elements, elem_of_difference, elem_of_list_to_set.
Qed.

Lemma non_renamed_bases_of_nil (schema : Schema) (context : CommandContext) (scls : Obj) :
  non_renamed_bases_of schema context scls = []
  <-> forall b, b ∈ get_implicit_bases schema scls -> b ∈ renamed_objs context.
Proof.
  split.
  - intros Hnil b Hb. destruct (decide (b ∈ renamed_objs context)) as [|Hnot]; [done|].
    assert (Hin : b ∈ non_renamed_bases_of schema context scls)
      by by apply elem_of_non_renamed_bases_of.
    rewrite Hnil in Hin. by apply elem_of_nil in Hin.
  - intros Hall. destruct (non_renamed_bases_of schema context scls) as [|b l] eqn:Heq;
      [done|].
    assert (Hin : b ∈ non_renamed_bases_of schema context scls)
      by (rewrite Heq; apply list_elem_of_here).
    apply elem_of_non_renamed_bases_of in Hin as [Hb Hnot]. destruct Hnot. by apply Hall.
Qed.

Lemma _propagate_ref_op_loop_ok (schema : Schema) (context : CommandContext)
  (cb : CommandContext -> Command -> string -> Command) (refname : string)
  (descendants referrers : list Obj) :
  Forall2 (fun d r =>
             issubclass_obj (type_of schema d) "ReferencedObject" = true
             /\ get_referrer schema d = Some r) descendants referrers ->
  forall self : Command,
    _propagate_ref_op_loop self schema context cb refname descendants
    = Ok (add_all self
            (zip_with (fun d r =>
               let r_alter := init_delta_command schema r AlterObject in
               let d_alter :=
                 set_ref_op_propagated (init_delta_command schema d AlterObject) true in
               add r_alter
                 (cb (new_context d_alter (new_context r_alter context r) d) d_alter
                    refname))
               descendants referrers)).
Proof.
  induction 1 as [|d r descendants referrers [Hd Hr] _ IH]; intros self; [done|].
  simpl. unfold _propagate_ref_op_descendant. rewrite Hd, Hr.
  cbn [mbind Result_bind]. apply IH.
Qed.

(** C5, as amended: a rename of a ref that is not generic, not canonical.
    If some implicit base of the ref is not in [renamed_objs], it raises
    SchemaDefinitionError "cannot rename inherited ...", its details
    naming those bases.  If every implicit base is in [renamed_objs]: when a
    frame of the context stack already holds a command marked
    [ref_op_propagated], the rename succeeds and propagates nothing;
    otherwise, inside a referrer context, it adds for every ordered
    descendant an AlterObject of the descendant's referrer holding an
    AlterObject of the descendant, marked [ref_op_propagated], holding the
    rename to the new short name. *)
Theorem rename_inherited (self : Command) (scls : Obj) (schema : Schema)
  (context : CommandContext) (schema1 : Schema) (self1 : Command) :
  super_rename_begin self scls schema context = Ok (schema1, self1) ->
  canonical context = false ->
  generic schema1 scls = false ->
  let vn := get_verbosename schema scls true in
  let non_renamed := non_renamed_bases_of schema1 context scls in
  (forall b, b ∈ non_renamed <->
             b ∈ get_implicit_bases schema1 scls /\ b ∉ renamed_objs context)
  /\ ((exists b, b ∈ get_implicit_bases schema1 scls /\ b ∉ renamed_objs context) ->
      _rename_begin self scls schema context
      = Raise (SchemaDefinitionError
          ("cannot rename inherited " +:+ vn)
          (Some (vn +:+ " is inherited from "
                    +:+ join ", " (map (fun b => get_verbosename schema1 b true) non_renamed)
                    +:+ ", which "
                    +:+ (if bool_decide (1 < length non_renamed) then "are" else "is")
                    +:+ " not being renamed"))))
  /\ ((forall b, b ∈ get_implicit_bases schema1 scls -> b ∈ renamed_objs context) ->
      (ref_op_already_propagated context = true ->
       _rename_begin self scls schema context = Ok (schema1, self1))
      /\ (ref_op_already_propagated context = false ->
          forall referrer_ctx referrers,
            get_referrer_context_or_die (cmd_class self1) context = Ok referrer_ctx ->
            Forall2 (fun d r =>
                       issubclass_obj (type_of schema1 d) "ReferencedObject" = true
                       /\ get_referrer schema1 d = Some r)
              (ordered_descendants schema1 scls) referrers ->
            let referrer_class := type_of schema1 (f_scls referrer_ctx) in
            let refdict := get_refdict_for_class referrer_class (type_of schema1 scls) in
            let refname := get_key_for referrer_class (rd_attr refdict) schema1 scls in
            _rename_begin self scls schema context
            = Ok (schema1,
                  add_all self1
                    (zip_with (propagated_rename schema1 context scls refname)
                       (ordered_descendants schema1 scls) referrers)))).
Proof.
  intros Hsuper Hcanon Hgen vn non_renamed.
  assert (Hbegin :
    _rename_begin self scls schema context
    = if negb (bool_decide (non_renamed = [])) then
        Raise (SchemaDefinitionError
          ("cannot rename inherited " +:+ vn)
          (Some (vn +:+ " is inherited from "
                    +:+ join ", " (map (fun b => get_verbosename schema1 b true) non_renamed)
                    +:+ ", which "
                    +:+ (if bool_decide (1 < length non_renamed) then "are" else "is")
                    +:+ " not being renamed")))
      else _propagate_ref_rename self1 schema1 context scls).
  { unfold _rename_begin. rewrite Hsuper. cbn [mbind Result_bind].
    by rewrite Hcanon, Hgen. }
  rewrite Hbegin.
  split; [intros b; apply elem_of_non_renamed_bases_of|]. split.
  - intros (b & Hb & Hnot). rewrite bool_decide_eq_false_2; [done|].
    intros Hnil. apply Hnot.
    by apply (proj1 (non_renamed_bases_of_nil schema1 context scls) Hnil).
  - intros Hall. apply (proj2 (non_renamed_bases_of_nil schema1 context scls)) in Hall.
    rewrite bool_decide_eq_true_2 by done. cbn [negb].
    unfold _propagate_ref_rename, _propagate_ref_op. split.
    + by intros ->.
    + intros -> referrer_ctx referrers -> Hdesc. cbn [mbind Result_bind].
      by rewrite (_propagate_ref_op_loop_ok _ _ _ _ _ _ Hdesc).
Qed.

(** ** Propagation of a create to the children of the referrer *)






(** ** Propagation of a delete to a child of the referrer *)

(** C2, as the code has it: the command [_propagate_ref_deletion] builds
    for the ref of a child is applied at once, and its schema returned.
    For a ref that is neither owned nor left with implicit bases it is the
    DeleteObject of the ref.  For a ref that is owned or has implicit
    bases left it is an AlterObject of the ref holding one command that
    carries the removed and added bases of the delta; the class of that
    command is the AlterObject class of the ref again, not its
    RebaseInheritingObject class. *)
Theorem propagate_ref_deletion_cmd (self : Command) (schema : Schema)
  (context : CommandContext) (refdict : RefDict) (child child_ref : Obj) :
  let implicit_bases :=
    _get_implicit_ref_bases (cmd_class self) schema context child (rd_attr refdict)
      (get_name schema child_ref) in
  let delta := get_ref_implicit_base_delta schema context child_ref implicit_bases in
  let mcls := type_of schema child_ref in
  exists cmd,
    _propagate_ref_deletion self schema context refdict child child_ref
      = (schema' ← cmd_apply cmd schema context; Ok (schema', cmd))
    /\ classname cmd = get_name schema child_ref
    /\ (get_is_owned schema child_ref = true \/ implicit_bases <> [] ->
        cmd_class cmd = get_command_class_or_die AlterObject mcls
        /\ exists sub,
             ops cmd = [sub]
             /\ cmd_class sub = get_command_class_or_die AlterObject mcls
             /\ cmd_class sub <> get_command_class_or_die RebaseInheritingObject mcls
             /\ classname sub = get_name schema child_ref
             /\ removed_bases sub = delta.1
             /\ added_bases sub = delta.2)
    /\ (get_is_owned schema child_ref = false -> implicit_bases = [] ->
        cmd = init_delta_command schema child_ref DeleteObject).
Proof.
  intros implicit_bases delta mcls.
  unfold _propagate_ref_deletion. fold implicit_bases. fold delta.
  destruct (get_is_owned schema child_ref || negb (bool_decide (implicit_bases = [])))
    eqn:Hkeep.
  - destruct delta as [removed added] eqn:Hdelta.
    eexists. split; [reflexivity|]. split; [reflexivity|]. split.
    + intros _. split; [reflexivity|]. eexists. split; [reflexivity|].
      split; [reflexivity|]. split; [discriminate|]. by repeat split.
    + intros Howned Hnil. rewrite Howned, bool_decide_eq_true_2 in Hkeep by done.
      discriminate Hkeep.
  - apply orb_false_iff in Hkeep as [Howned Himp].
    apply negb_false_iff, bool_decide_eq_true in Himp.
    eexists. split; [reflexivity|]. split; [reflexivity|]. split.
    + intros [Htrue|Hne]; [congruence|done].
    + done.
Qed.

End Properties.

(** * Where the refusal of an inherited drop can come from *)

Section InheritedDrop.

Context `{E : Env} `{F : Framework}.










End InheritedDrop.

(** * The delete of a referenced object *)

Section DeleteEntryPoint.

Context `{E : Env} `{F : Framework}.




End DeleteEntryPoint.

(** * Further properties *)

Section MoreProperties.

Context `{E : Env} `{F : Framework}.

(** ** The stack of alter commands *)

Lemma referrer_walk_head (schema : Schema) (o : Obj) (chain : list Obj) (closed : bool) :
  referrer_walk schema o chain closed -> chain = o :: tail chain.
Proof. by destruct 1. Qed.

Lemma _build_alter_cmd_stack_walk_chain (schema : Schema) (o : Obj) (chain : list Obj)
  (closed : bool) :
  referrer_walk schema o chain closed ->
  forall fuel, length chain <= fuel ->
    _build_alter_cmd_stack_walk fuel schema (Some o)
    = Some (map Some (tail chain) ++ (if closed then [] else [None])).
Proof.
  induction 1 as [o Htop|o Href Hnone|o r chain closed Href Hr Hwalk IH];
    intros [|fuel] Hfuel; simpl in Hfuel; try lia; simpl.
  - by rewrite Htop.
  - rewrite Href, Hnone. by destruct fuel.
  - rewrite Href, Hr. rewrite IH by lia. simpl.
    by rewrite (referrer_walk_head _ _ _ _ Hwalk) at 2.
Qed.

Lemma _build_alter_cmd_stack_alters_some (schema : Schema) (objs : list Obj) :
  _build_alter_cmd_stack_alters schema (map Some objs)
  = Ok (map (fun o => init_delta_command schema o AlterObject) objs).
Proof. induction objs as [|o objs IH]; [done|]. simpl. by rewrite IH. Qed.

Lemma nest_app (alters : list Command) (alter_cmd : Command) (added : list Command) :
  nest (alters ++ [alter_cmd]) added = nest alters [add_all alter_cmd added].
Proof.
  induction alters as [|c alters IH]; [done|]. simpl. by rewrite IH.
Qed.

Lemma build_alter_cmd_stack_closed_aux (fuel : nat) (self : Command) (schema : Schema)
  (context : CommandContext) (scls referrer : Obj) (chain : list Obj) :
  referrer_walk schema referrer chain true ->
  length chain <= fuel ->
  let alter := fun o => init_delta_command schema o AlterObject in
  _build_alter_cmd_stack fuel self schema context scls (Some referrer)
    = Some (Ok (map alter (rev chain)))
  /\ forall added,
       delta_of (map alter (rev chain)) added
       = delta_of (map alter (rev (tail chain))) [add_all (alter referrer) added].
Proof.
  intros Hwalk Hfuel alter.
  pose proof (referrer_walk_head _ _ _ _ Hwalk) as Hchain.
  pose proof (_build_alter_cmd_stack_walk_chain _ _ _ _ Hwalk fuel Hfuel) as Hwalked.
  destruct chain as [|o chain']; [done|]. injection Hchain as ->.
  cbn [tail] in *. rewrite app_nil_r in Hwalked.
  split.
  - unfold _build_alter_cmd_stack. rewrite Hwalked. cbn [mbind option_bind].
    change (Some referrer :: map Some chain') with (map Some (referrer :: chain')).
    by rewrite <- map_rev, _build_alter_cmd_stack_alters_some.
  - intros added. unfold delta_of.
    simpl. rewrite map_app. simpl. by rewrite nest_app.
Qed.

Lemma build_alter_cmd_stack_open_aux (fuel : nat) (self : Command) (schema : Schema)
  (context : CommandContext) (scls referrer : Obj) (chain : list Obj) :
  referrer_walk schema referrer chain false ->
  length chain <= fuel ->
  _build_alter_cmd_stack fuel self schema context scls (Some referrer)
  = Some (Raise AssertionError).
Proof.
  intros Hwalk Hfuel. unfold _build_alter_cmd_stack.
  rewrite (_build_alter_cmd_stack_walk_chain _ _ _ _ Hwalk fuel Hfuel).
  simpl. rewrite rev_app_distr. done.
Qed.

(** X1: [_build_alter_cmd_stack] for a referrer whose chain of referrers
    ends at an object that is no referenced object, with fuel for the whole
    chain: the alters are those of the chain, the outermost referrer first;
    the command it returns is the alter of the given referrer; and what is
    added to that command sits, in the delta, under the alters of the outer
    referrers. *)
Theorem build_alter_cmd_stack_closed (fuel : nat) (self : Command) (schema : Schema)
  (context : CommandContext) (scls referrer : Obj) (chain : list Obj) :
  referrer_walk schema referrer chain true ->
  length chain <= fuel ->
  let alter := fun o => init_delta_command schema o AlterObject in
  _build_alter_cmd_stack fuel self schema context scls (Some referrer)
    = Some (Ok (map alter (rev chain)))
  /\ last (map alter (rev chain)) = Some (alter referrer)
  /\ forall added,
       delta_of (map alter (rev chain)) added
       = delta_of (map alter (rev (tail chain))) [add_all (alter referrer) added].
Proof.
  intros Hwalk Hfuel alter.
  destruct (build_alter_cmd_stack_closed_aux fuel self schema context scls referrer
              chain Hwalk Hfuel) as [Hstack Hdelta].
  split; [exact Hstack|]. split; [|exact Hdelta].
  pose proof (referrer_walk_head _ _ _ _ Hwalk) as Hchain.
  destruct chain as [|o chain']; [done|]. injection Hchain as ->.
  simpl. rewrite map_app. simpl. by rewrite last_snoc.
Qed.

(** X2: [_build_alter_cmd_stack] raises AssertionError when the chain of
    referrers ends at a referenced object that has no referrer, and when
    it is called without referrer for an object that is no referenced
    object or has no referrer; called without referrer for a referenced
    object, it starts from the referrer of that object. *)
Theorem build_alter_cmd_stack_open (fuel : nat) (self : Command) (schema : Schema)
  (context : CommandContext) (scls : Obj) :
  (forall referrer chain,
     referrer_walk schema referrer chain false ->
     length chain <= fuel ->
     _build_alter_cmd_stack fuel self schema context scls (Some referrer)
     = Some (Raise AssertionError))
  /\ (issubclass_obj (type_of schema scls) "ReferencedObject" = false ->
      _build_alter_cmd_stack fuel self schema context scls None
      = Some (Raise AssertionError))
  /\ (issubclass_obj (type_of schema scls) "ReferencedObject" = true ->
      match get_referrer schema scls with
      | None =>
        _build_alter_cmd_stack fuel self schema context scls None
        = Some (Raise AssertionError)
      | Some r =>
        _build_alter_cmd_stack fuel self schema context scls None
        = _build_alter_cmd_stack fuel self schema context scls (Some r)
      end).
Proof.
  split; [|split].
  - intros referrer chain. apply build_alter_cmd_stack_open_aux.
  - intros Hnot. unfold _build_alter_cmd_stack. by rewrite Hnot.
  - intros Href. unfold _build_alter_cmd_stack. rewrite Href.
    destruct (get_referrer schema scls); [reflexivity|]. by destruct fuel.
Qed.

(** ** Derivation of a ref *)

Lemma set_attribute_values_eq (cmd : Command) (values : gmap string Value) :
  set_attribute_values cmd values
  = mkCommand (cmd_class cmd) (classname cmd) (values ∪ attrs cmd)
      (if_exists cmd) (if_not_exists cmd) (ref_op_propagated cmd) (implicit cmd)
      (added_bases cmd) (removed_bases cmd) (ops cmd).
Proof.
  unfold set_attribute_values.
  apply (map_fold_weak_ind (fun r m =>
    r = mkCommand (cmd_class cmd) (classname cmd) (m ∪ attrs cmd)
          (if_exists cmd) (if_not_exists cmd) (ref_op_propagated cmd) (implicit cmd)
          (added_bases cmd) (removed_bases cmd) (ops cmd))).
  - rewrite (left_id_L ∅ (∪)). by destruct cmd.
  - intros k v m r _ ->. unfold set_attribute_value. simpl.
    by rewrite insert_union_l.
Qed.

(** X3: the command [derive_ref] builds for the derived ref carries the
    derived name and, over the attributes it was given, [name] and the
    object derived from as its one base.  It is a create when the referrer
    has no ref under the key of the derived name, and else an alter, which
    holds a rebase exactly when the bases of the ref found are not just the
    object derived from; the rebase carries the delta from those bases. *)
Theorem derive_ref_cmd_shape (self : Obj) (schema : Schema) (referrer : Obj)
  (attrs0 : option (gmap string Value)) (derived_name : Name) :
  let cmd := derive_ref_cmd self schema referrer attrs0 derived_name in
  let mcls := type_of schema self in
  let referrer_class := type_of schema referrer in
  let refdict := get_refdict_for_class referrer_class mcls in
  let existing :=
    coll_get (get_field_coll schema referrer (rd_attr refdict))
      (get_key_for_name referrer_class (rd_attr refdict) schema derived_name) in
  classname cmd = derived_name
  /\ attrs cmd
     = <["bases" := VObjList [self]]> (<["name" := VName derived_name]> (default ∅ attrs0))
  /\ (existing = None ->
      cmd_class cmd = get_command_class_or_die CreateObject mcls /\ ops cmd = [])
  /\ (forall found, existing = Some found ->
        cmd_class cmd = get_command_class_or_die AlterObject mcls
        /\ (get_bases schema found = [self] -> ops cmd = [])
        /\ (get_bases schema found <> [self] ->
            exists rebase,
              ops cmd = [rebase]
              /\ cmd_class rebase = get_command_class_or_die RebaseInheritingObject mcls
              /\ classname rebase = derived_name
              /\ (removed_bases rebase, added_bases rebase)
                 = delta_bases (map (get_name schema) (get_bases schema found))
                     [get_name schema self])).
Proof.
  intros cmd mcls referrer_class refdict existing.
  unfold cmd, derive_ref_cmd.
  fold mcls referrer_class refdict. fold existing.
  rewrite set_attribute_values_eq.
  destruct existing as [found|].
  - destruct (bool_decide ([self] <> get_bases schema found)) eqn:Hne;
      [apply bool_decide_eq_true in Hne|apply bool_decide_eq_false in Hne].
    + destruct (delta_bases _ _) as [removed added] eqn:Hdelta. simpl.
      rewrite (right_id_L ∅ (∪)).
      split; [done|]. split; [done|]. split; [done|].
      intros ? [= <-]. split; [done|]. split; [by intros Heq; destruct Hne|].
      intros _. eexists. split; [reflexivity|]. simpl. by rewrite <- Hdelta.
    + simpl. rewrite (right_id_L ∅ (∪)).
      split; [done|]. split; [done|]. split; [done|].
      intros ? [= <-]. split; [done|]. split; [done|].
      intros Hne'. destruct Hne. intros Heq. by apply Hne'.
  - simpl. rewrite (right_id_L ∅ (∪)).
    split; [done|]. split; [done|]. split; [done|]. done.
Qed.

(** X4: [derive_ref] refuses, before it builds anything, to derive an
    object under its own name (SchemaError "cannot derive ... from
    itself").  Otherwise, when the chain of referrers of the given referrer
    ends at an object that is no referenced object, it applies one delta, in
    which the command of the derived ref sits under the alter of the given
    referrer, itself under the alters of the outer referrers, and returns
    the object the new schema has under the derived name; when the chain
    ends at a referenced object without referrer, it raises AssertionError
    and applies nothing. *)
Theorem derive_ref_delta (fuel : nat) (self : Obj) (schema : Schema) (referrer : Obj)
  (qualifiers : list string) (mark_derived : bool) (attrs0 : option (gmap string Value))
  (derived_name_base : option string) (inheritance_merge : bool)
  (preserve_path_id : option bool) (inheritance_refdicts : option (list string))
  (transient : bool) (name : option Name) :
  let derived_name :=
    default (get_derived_name schema self referrer qualifiers mark_derived
               derived_name_base) name in
  let result :=
    derive_ref fuel self schema referrer qualifiers mark_derived attrs0 derived_name_base
      inheritance_merge preserve_path_id inheritance_refdicts transient name in
  let alter := fun o => init_delta_command schema o AlterObject in
  (get_name schema self = derived_name ->
   result
   = Some (Raise (SchemaError
       ("cannot derive " +:+ repr_obj self +:+ "(" +:+ name_str derived_name
          +:+ ") from itself") None)))
  /\ (get_name schema self <> derived_name ->
      forall chain closed,
        referrer_walk schema referrer chain closed ->
        length chain <= fuel ->
        if closed then
          let delta :=
            delta_of (map alter (rev (tail chain)))
              [add_all (alter referrer)
                 [derive_ref_cmd self schema referrer attrs0 derived_name]] in
          result
          = Some (schema' ← delta_apply delta schema
                              (with_delta_root (CommandContext_init [] false) delta)
                              (derive_ref_flags inheritance_merge inheritance_refdicts
                                 mark_derived transient preserve_path_id);
                  derived ← schema_get schema' derived_name;
                  Ok (schema', derived))
        else result = Some (Raise AssertionError)).
Proof.
  intros derived_name result alter.
  assert (Hname :
    match name with
    | Some name => name
    | None => get_derived_name schema self referrer qualifiers mark_derived
                derived_name_base
    end = derived_name) by by destruct name.
  unfold result, derive_ref. rewrite Hname. split.
  - intros Heq. by rewrite bool_decide_eq_true_2.
  - intros Hne chain closed Hwalk Hfuel. rewrite bool_decide_eq_false_2 by done.
    destruct closed.
    + destruct (build_alter_cmd_stack_closed_aux fuel
                  (derive_ref_cmd self schema referrer attrs0 derived_name)
                  schema (CommandContext_init [] false) self referrer chain Hwalk Hfuel)
        as [-> Hdelta].
      cbn [mbind option_bind Result_bind]. by rewrite Hdelta.
    + rewrite (build_alter_cmd_stack_open_aux fuel
                 (derive_ref_cmd self schema referrer attrs0 derived_name)
                 schema (CommandContext_init [] false) self referrer chain Hwalk Hfuel).
      done.
Qed.

(** ** Implicit rebase *)

(** X5: [RebaseReferencedInheritingObject.apply].  A rebase that is not
    marked implicit, or runs in a canonical context, is handed to the
    generic rebase as it is.  An implicit rebase needs a referrer context
    (RuntimeError without one) whose object is an inheriting object
    (AssertionError otherwise); its added and removed bases are then
    replaced by the delta computed from the schema, whatever it carried
    before. *)
Theorem rebase_apply_recomputes (self : Command) (schema : Schema)
  (context : CommandContext) :
  (canonical context = true \/ implicit self = false ->
   RebaseReferencedInheritingObject_apply self schema context
   = super_rebase_apply self schema context)
  /\ (canonical context = false -> implicit self = true ->
      (get_referrer_context (cmd_class self) context = Ok None ->
       RebaseReferencedInheritingObject_apply self schema context
       = Raise (RuntimeError ("no referrer context for " +:+ repr_cls (cmd_class self))))
      /\ (forall refctx,
            get_referrer_context (cmd_class self) context = Ok (Some refctx) ->
            (issubclass_obj (type_of schema (f_scls refctx)) "InheritingObject" = false ->
             RebaseReferencedInheritingObject_apply self schema context
             = Raise AssertionError)
            /\ (issubclass_obj (type_of schema (f_scls refctx)) "InheritingObject" = true ->
                forall scls,
                  get_object self schema context = Ok scls ->
                  let refdict :=
                    get_refdict_for_class (type_of schema (f_scls refctx))
                      (get_schema_metaclass self) in
                  let delta :=
                    get_ref_implicit_base_delta schema context scls
                      (_get_implicit_ref_bases (cmd_class self) schema context (f_scls refctx)
                         (rd_attr refdict) (classname self)) in
                  RebaseReferencedInheritingObject_apply self schema context
                  = super_rebase_apply (set_rebase_fields self true delta.2 delta.1)
                      schema context
                  /\ forall added removed,
                       get_object (set_rebase_fields self true added removed) schema context
                         = Ok scls ->
                       RebaseReferencedInheritingObject_apply
                         (set_rebase_fields self true added removed) schema context
                       = RebaseReferencedInheritingObject_apply self schema context))).
Proof.
  unfold RebaseReferencedInheritingObject_apply,
    RebaseReferencedInheritingObject_recompute.
  split.
  - intros [-> | ->]; [done|]. by rewrite andb_false_r.
  - intros Hcanon Himp. rewrite Hcanon, Himp. cbn [negb andb].
    unfold get_referrer_context_or_die. split.
    + by intros ->.
    + intros refctx Hctx. rewrite Hctx. cbn [mbind Result_bind]. split.
      * by intros ->.
      * intros Hinh scls Hobj. rewrite Hinh, Hobj. cbn [mbind Result_bind]. split.
        -- by destruct (get_ref_implicit_base_delta _ _ _ _).
        -- intros added removed Hobj'.
           unfold get_schema_metaclass.
           cbn [set_rebase_fields implicit cmd_class classname negb andb].
           rewrite Hctx. cbn [negb andb mbind Result_bind].
           rewrite Hinh, Hobj'. cbn [mbind Result_bind].
           by destruct (get_ref_implicit_base_delta _ _ _ _).
Qed.

Lemma filter_not_elem_of_self {A} `{EqDecision A} (l : list A) :
  filter (fun x => x ∉ l) l = [].
Proof.
  assert (Hall : forall l', (forall x, x ∈ l' -> x ∈ l) -> filter (fun x => x ∉ l) l' = []).
  { induction l' as [|x l' IH]; intros Hin; [done|].
    rewrite filter_cons, decide_False.
    - apply IH. intros y Hy. apply Hin. by right.
    - intros Hnot. apply Hnot, Hin. by left. }
  by apply Hall.
Qed.

(** X6: the delta of an implicit rebase is empty when the bases of the ref
    already are the implicit bases followed by its explicit bases: such a
    rebase removes nothing and adds nothing. *)
Theorem implicit_base_delta_fixpoint (schema : Schema) (context : CommandContext)
  (refcls : Obj) (implicit_bases : list Obj) :
  get_bases schema refcls = implicit_bases ++ explicit_bases_of schema refcls ->
  get_ref_implicit_base_delta schema context refcls implicit_bases = ([], []).
Proof.
  intros Hbases. unfold get_ref_implicit_base_delta, delta_bases.
  rewrite <- Hbases. by rewrite filter_not_elem_of_self.
Qed.

(** ** The bases shown in DDL *)

Lemma filter_not_elem_of_filter {A} `{EqDecision A} (p : A -> bool) (l : list A) :
  filter (fun x => x ∉ filter (fun y => p y = true) l) l
  = filter (fun x => p x = false) l.
Proof.
  assert (Hall : forall l' : list A,
    (forall x, x ∈ l' -> x ∈ l) ->
    filter (fun x => x ∉ filter (fun y => p y = true) l) l'
    = filter (fun x => p x = false) l').
  { induction l' as [|x l' IH]; intros Hin; [done|].
    rewrite !filter_cons, IH by (intros y Hy; apply Hin; by right).
    assert (Hx : x ∈ l) by (apply Hin; by left).
    destruct (p x) eqn:Hp.
    - rewrite decide_False, decide_False; [done|done|].
      intros Hnot. apply Hnot, list_elem_of_filter. done.
    - rewrite decide_True, decide_True; [done|done|].
      intros Hf. apply list_elem_of_filter in Hf as [Hf _]. congruence. }
  by apply Hall.
Qed.

(** X7: the bases [_get_bases_for_ast] keeps for the DDL are those of the
    generic method, in their order, without the implicit ones: a base is
    dropped exactly when its name is not the default base, is a schema
    name, and differs from its short name.  The default base of the class,
    and any base whose name is its own short name, is always kept. *)
Theorem get_bases_for_ast_hides_implicit (self : Command) (schema : Schema)
  (context : CommandContext) (bases : list Name) :
  let default_base := get_default_base_name (get_schema_metaclass self) in
  let generic_bases := super_get_bases_for_ast self schema context bases in
  _get_bases_for_ast self schema context bases
    = filter (fun b => is_implicit_base_name default_base b = false) generic_bases
  /\ _get_bases_for_ast self schema context bases `sublist_of` generic_bases
  /\ (forall b, b ∈ generic_bases ->
        Some b = default_base \/ shortname_from_fullname b = b ->
        b ∈ _get_bases_for_ast self schema context bases)
  /\ (forall b, b ∈ _get_bases_for_ast self schema context bases ->
        b ∉ cmd_get_implicit_bases self schema context (BShells generic_bases)).
Proof.
  intros default_base generic_bases.
  assert (Heq : _get_bases_for_ast self schema context bases
                = filter (fun b => is_implicit_base_name default_base b = false)
                    generic_bases).
  { unfold _get_bases_for_ast, cmd_get_implicit_bases. simpl.
    apply filter_not_elem_of_filter. }
  split; [exact Heq|]. split; [rewrite Heq; apply sublist_filter|]. split.
  - intros b Hb Hkeep. rewrite Heq. apply list_elem_of_filter. split; [|done].
    unfold is_implicit_base_name. destruct Hkeep as [Hdef|Hshort].
    + by rewrite bool_decide_eq_true_2.
    + rewrite (bool_decide_eq_true_2 (shortname_from_fullname b = b)) by done.
      by rewrite andb_false_r.
  - intros b Hb. rewrite Heq in Hb. apply list_elem_of_filter in Hb as [Hb _].
    unfold cmd_get_implicit_bases. simpl. intros Hin.
    apply list_elem_of_filter in Hin as [Hin _]. fold default_base in Hin. congruence.
Qed.

(** ** The implicit bases of a ref *)

Lemma length_omap_le {A B} (f : A -> option B) (l : list A) :
  length (omap f l) <= length l.
Proof.
  induction l as [|x l IH]; [done|]. csimpl. destruct (f x); simpl; lia.
Qed.

(** X8: every implicit base [_get_implicit_ref_bases] returns is a ref
    that is not final and that some base of the referrer holds in its
    collection under the key of the name mangled for that base; there is at
    most one per base of the referrer, so none for a referrer without
    bases; and a base of the referrer whose ref is final, or that has no
    such ref, contributes nothing. *)
Theorem implicit_ref_bases_sound (cls : CmdClass) (schema : Schema) (context : CommandContext)
  (referrer : Obj) (referrer_field : string) (fq_name : Name) :
  let implicit_bases :=
    _get_implicit_ref_bases cls schema context referrer referrer_field fq_name in
  let key := fun ref_base =>
    get_key_for_name (type_of schema referrer) referrer_field schema
      (_classname_from_name cls fq_name (get_name schema ref_base)) in
  (forall b, b ∈ implicit_bases <->
     get_is_final schema b = false
     /\ exists ref_base,
          ref_base ∈ get_bases schema referrer
          /\ coll_get (get_field_coll schema ref_base referrer_field) (key ref_base)
             = Some b)
  /\ length implicit_bases <= length (get_bases schema referrer)
  /\ (get_bases schema referrer = [] -> implicit_bases = []).
Proof.
  intros implicit_bases key. unfold implicit_bases.
  rewrite _get_implicit_ref_bases_omap. split; [|split].
  - intros b. rewrite list_elem_of_omap. unfold implicit_ref_in_base, key. split.
    + intros (ref_base & Hbase & Hfound).
      destruct (coll_get _ _) as [found|] eqn:Hget; [|done].
      destruct (get_is_final schema found) eqn:Hfinal; [done|].
      injection Hfound as <-. split; [done|]. by exists ref_base.
    + intros (Hfinal & ref_base & Hbase & Hget). exists ref_base. split; [done|].
      by rewrite Hget, Hfinal.
  - apply length_omap_le.
  - by intros ->.
Qed.

(** ** Canonical contexts *)

(** X9: in a canonical context the commands of this module do their
    generic step and nothing else: a create computes no implicit bases and
    validates nothing, and its ref is added to the referrer without
    propagation; a delete removes the ref from the referrer, verifies
    nothing and propagates nothing; a rename and an AlterOwned are the
    framework's; an implicit rebase keeps the deltas it carries. *)
Theorem canonical_context_suppresses (self : Command) (scls : Obj) (schema : Schema)
  (context : CommandContext) (referrer : Obj) :
  canonical context = true ->
  _create_begin self schema context
    = (_ ← get_referrer_context (cmd_class self) context;
       super_create_begin self schema context)
  /\ _create_ref self scls schema context referrer
     = Ok (CreateReferencedObject_create_ref scls schema context referrer, self)
  /\ _delete_ref self scls schema context referrer
     = Ok (DeleteReferencedObjectCommand_delete_ref scls schema context referrer, self)
  /\ _rename_begin self scls schema context = super_rename_begin self scls schema context
  /\ _alter_begin self scls schema context = super_alter_begin self scls schema context
  /\ RebaseReferencedInheritingObject_apply self schema context
     = super_rebase_apply self schema context.
Proof.
  intros Hcanon. repeat split.
  - unfold _create_begin.
    destruct (get_referrer_context (cmd_class self) context) as [[referrer_ctx|]|e];
      cbn [mbind Result_bind]; [| |done].
    + unfold _create_begin_bases. rewrite Hcanon. cbn [negb].
      by destruct (super_create_begin self schema context) as [[[schema1 self1] scls1]|e].
    + unfold _create_begin_bases.
      by destruct (super_create_begin self schema context) as [[[schema1 self1] scls1]|e].
  - unfold _create_ref. by rewrite Hcanon, andb_false_r.
  - unfold _delete_ref. by rewrite Hcanon, andb_false_r.
  - unfold _rename_begin.
    destruct (super_rename_begin self scls schema context) as [[schema1 self1]|e];
      cbn [mbind Result_bind]; [|done].
    by rewrite Hcanon.
  - unfold _alter_begin.
    destruct (super_alter_begin self scls schema context) as [[schema1 self1]|e];
      cbn [mbind Result_bind]; [|done].
    by rewrite Hcanon, andb_false_r.
  - unfold RebaseReferencedInheritingObject_apply,
      RebaseReferencedInheritingObject_recompute.
    by rewrite Hcanon.
Qed.

(** ** Propagation of an operation to the descendants *)

Lemma ref_op_already_propagated_push (context : CommandContext) (f : Frame) :
  ref_op_already_propagated (push_frame context f)
  = (issubclass_cmd_of (cmd_class (f_op f)) "ReferencedInheritingObjectCommand"
     && ref_op_propagated (f_op f))
    || ref_op_already_propagated context.
Proof.
  unfold ref_op_already_propagated, push_frame. simpl.
  by rewrite rev_app_distr.
Qed.

(** X10: propagation stops after one level.  The context in which
    [_propagate_ref_op] calls its callback for a descendant, whose alter
    command is a [ReferencedInheritingObjectCommand], already counts as
    propagated, and so does every context opened on top of it; in such a
    context [_propagate_ref_op] returns the schema and the command as they
    are, whatever the command, the object and the callback. *)
Theorem propagate_ref_op_stops (schema : Schema) (context : CommandContext)
  (descendant d_referrer : Obj) :
  issubclass_cmd_of (get_command_class_or_die AlterObject (type_of schema descendant))
    "ReferencedInheritingObjectCommand" = true ->
  let d_alter_cmd :=
    set_ref_op_propagated (init_delta_command schema descendant AlterObject) true in
  let r_alter_cmd := init_delta_command schema d_referrer AlterObject in
  let inner :=
    new_context d_alter_cmd (new_context r_alter_cmd context d_referrer) descendant in
  ref_op_already_propagated inner = true
  /\ (forall context',
        ref_op_already_propagated context' = true ->
        (forall cmd o, ref_op_already_propagated (new_context cmd context' o) = true)
        /\ forall self self_scls schema' scls cb,
             _propagate_ref_op self self_scls schema' context' scls cb
             = Ok (schema', self)).
Proof.
  intros Hcls d_alter_cmd r_alter_cmd inner. split.
  - unfold inner, new_context. rewrite ref_op_already_propagated_push. simpl.
    unfold init_delta_command, new_command. simpl. by rewrite Hcls.
  - intros context' Hprop. split.
    + intros cmd o. unfold new_context. rewrite ref_op_already_propagated_push.
      by rewrite Hprop, orb_true_r.
    + intros self self_scls schema' scls cb. unfold _propagate_ref_op. by rewrite Hprop.
Qed.

(** X11: outside a propagated frame, [_propagate_ref_op] needs a referrer
    context: without one it raises RuntimeError, also for an object
    without descendants.  With one, it raises AssertionError at the first
    descendant that is no referenced object or has no referrer, and adds
    nothing to the command. *)
Theorem propagate_ref_op_errors (self : Command) (self_scls : Obj) (schema : Schema)
  (context : CommandContext) (scls : Obj)
  (cb : CommandContext -> Command -> string -> Command) :
  ref_op_already_propagated context = false ->
  (get_referrer_context (cmd_class self) context = Ok None ->
   _propagate_ref_op self self_scls schema context scls cb
   = Raise (RuntimeError ("no referrer context for " +:+ repr_cls (cmd_class self))))
  /\ (forall referrer_ctx before referrers d after,
        get_referrer_context (cmd_class self) context = Ok (Some referrer_ctx) ->
        ordered_descendants schema scls = before ++ d :: after ->
        Forall2 (fun d r =>
                   issubclass_obj (type_of schema d) "ReferencedObject" = true
                   /\ get_referrer schema d = Some r) before referrers ->
        issubclass_obj (type_of schema d) "ReferencedObject" = false
        \/ get_referrer schema d = None ->
        _propagate_ref_op self self_scls schema context scls cb = Raise AssertionError).
Proof.
  intros Hprop. unfold _propagate_ref_op. rewrite Hprop.
  unfold get_referrer_context_or_die. split.
  - by intros ->.
  - intros referrer_ctx before referrers d after -> -> Hbefore Hbad.
    cbn [mbind Result_bind].
    assert (Hloop : forall self0 refname,
      _propagate_ref_op_loop self0 schema context cb refname (before ++ d :: after)
      = Raise AssertionError).
    { induction Hbefore as [|d0 r0 before referrers [Hd0 Hr0] _ IH]; intros self0 refname.
      - simpl. unfold _propagate_ref_op_descendant.
        destruct Hbad as [-> | Hnone]; [done|].
        destruct (issubclass_obj _ _); [|done]. by rewrite Hnone.
      - simpl. unfold _propagate_ref_op_descendant at 1. rewrite Hd0, Hr0.
        cbn [mbind Result_bind]. apply IH. }
    by rewrite Hloop.
Qed.

(** ** Sub-refs that are dropped *)

(** X12: [_drop_owned_refs] adds exactly one command for every sub-ref of
    the collection when it returns.  When no sub-ref is both inherited and
    owned, it always returns, with the schema as it was: the DeleteObject
    it adds for each sub-ref is not applied there; in particular an empty
    collection leaves the command and the schema as they are. *)
Theorem drop_owned_refs_deletes (self : Command) (scls : Obj) (schema : Schema)
  (context : CommandContext) (refdict : RefDict) :
  let refs := coll_objects (get_field_coll schema scls (rd_attr refdict)) in
  (forall schema' self',
     _drop_owned_refs self scls schema context refdict = Ok (schema', self') ->
     length (ops self') = length (ops self) + length refs)
  /\ (Forall (fun ref => get_implicit_bases schema ref = []
                         \/ get_is_owned schema ref = false) refs ->
      _drop_owned_refs self scls schema context refdict
      = Ok (schema,
            add_all self (map (fun ref => init_delta_command schema ref DeleteObject) refs)))
  /\ (refs = [] -> _drop_owned_refs self scls schema context refdict = Ok (schema, self)).
Proof.
  intros refs. unfold _drop_owned_refs. fold refs. split; [|split].
  - intros schema' self' Hloop.
    apply _drop_owned_refs_loop_sound in Hloop as (cmds & Hrun & ->).
    rewrite ops_add_all, length_app. f_equal.
    clear -Hrun. induction Hrun; simpl; congruence.
  - intros Hall. revert self.
    induction Hall as [|ref rest Href _ IH]; intros self; [done|].
    simpl. destruct Href as [Hnil|Hown].
    + rewrite bool_decide_eq_true_2 by done. cbn [negb andb]. apply IH.
    + rewrite Hown, andb_false_r. apply IH.
  - by intros ->.
Qed.

(** ** Children of the referrer at a delete *)

(** X13: the propagation of a delete to the children of the referrer
    skips every child that has no ref under the key of the name mangled for
    it: when no child has one, the schema and the command are returned as
    they are.  In general, when it returns, it has added at most one
    command per child, each an AlterObject of a child holding one
    command. *)
Theorem delete_ref_children_skips (schema : Schema) (context : CommandContext)
  (referrer_class : PyClass) (refdict : RefDict) (self_name : Name)
  (children0 : list Obj) (self : Command) :
  (Forall (fun child =>
             coll_get (get_field_coll schema child (rd_attr refdict))
               (get_key_for_name referrer_class (rd_attr refdict) schema
                  (_classname_from_name (cmd_class self) self_name
                     (get_name schema child))) = None)
     children0 ->
   _delete_ref_children self schema context referrer_class refdict self_name children0
   = Ok (schema, self))
  /\ (forall schema' self',
        _delete_ref_children self schema context referrer_class refdict self_name
          children0 = Ok (schema', self') ->
        exists alters,
          self' = add_all self alters
          /\ length alters <= length children0
          /\ Forall (fun alter =>
                       cc_kind (cmd_class alter) = AlterObject
                       /\ length (ops alter) = 1) alters).
Proof.
  split.
  - intros Hall. induction Hall as [|child rest Hchild _ IH]; [done|].
    simpl. rewrite Hchild. apply IH.
  - revert self schema. induction children0 as [|child rest IH]; intros self schema;
      intros schema' self'; simpl.
    + intros [= <- <-]. exists []. by repeat split.
    + destruct (coll_get _ _) as [existing|].
      * destruct (_propagate_ref_deletion self schema _ refdict child existing)
          as [[schema1 cmd]|e] eqn:Hprop; cbn [mbind Result_bind]; [|done].
        intros Hrest. apply IH in Hrest as (alters & -> & Hlen & Hall).
        eexists (_ :: alters). split; [reflexivity|]. split; [simpl; lia|].
        constructor; [|done]. split; reflexivity.
      * intros Hrest. apply IH in Hrest as (alters & -> & Hlen & Hall).
        exists alters. split; [done|]. split; [lia|done].
Qed.

(** ** Validation outside its usual place *)

(** X14: [_validate] looks up the referrer context before anything else:
    without one it raises RuntimeError, also when there is nothing to
    validate.  Inside one, it raises nothing unless the context is
    declarative and the object owned; and where it would name the
    ancestors, an implicit base without referrer makes it raise
    AssertionError in place of the SchemaDefinitionError. *)
Theorem validate_needs_referrer_context (self : Command) (scls : Obj) (schema : Schema)
  (context : CommandContext) :
  (get_referrer_context (cmd_class self) context = Ok None ->
   _validate self scls schema context
   = Raise (RuntimeError ("no referrer context for " +:+ repr_cls (cmd_class self))))
  /\ (forall referrer_ctx,
        get_referrer_context (cmd_class self) context = Ok (Some referrer_ctx) ->
        (declarative context = false \/ get_is_owned schema scls = false ->
         _validate self scls schema context = Ok ())
        /\ (declarative context = true ->
            get_is_owned schema scls = true ->
            rd_requires_explicit_overloaded
              (get_refdict_for_class (get_schema_metaclass (f_op referrer_ctx))
                 (get_schema_metaclass self)) = true ->
            truthy (get_attribute_value self "declared_overloaded") = false ->
            (exists b, b ∈ get_implicit_bases schema scls /\ get_referrer schema b = None) ->
            _validate self scls schema context = Raise AssertionError)).
Proof.
  unfold _validate, get_referrer_context_or_die. split.
  - by intros ->.
  - intros referrer_ctx ->. cbn [mbind Result_bind]. split.
    + intros [-> | ->]; [done|]. by rewrite andb_false_r.
    + intros -> -> -> -> (b & Hb & Hnone). cbn [andb negb].
      rewrite bool_decide_eq_false_2.
      2:{ intros Hnil. rewrite Hnil in Hb. by apply elem_of_nil in Hb. }
      cbn [andb negb].
      assert (Hanc : _validate_ancestry schema (get_implicit_bases schema scls)
                     = Raise AssertionError).
      { induction (get_implicit_bases schema scls) as [|x l IH];
          [by apply elem_of_nil in Hb|].
        simpl. destruct (get_referrer schema x) as [r|] eqn:Hr; [|done].
        apply elem_of_cons in Hb as [-> | Hb]; [congruence|].
        by rewrite (IH Hb). }
      by rewrite Hanc.
Qed.

(** X15: [AlterReferencedInheritingObject._alter_begin] validates exactly
    when the generic alter has taken [is_owned] from false to true, and
    then also in a canonical context; any other alter is the generic one.
    Such a re-own outside a referrer context raises RuntimeError. *)
Theorem alter_begin_revalidates (self : Command) (scls : Obj) (schema : Schema)
  (context : CommandContext) (schema1 : Schema) (self1 : Command) :
  super_alter_begin self scls schema context = Ok (schema1, self1) ->
  (get_is_owned schema scls = true \/ get_is_owned schema1 scls = false ->
   AlterReferencedInheritingObject_alter_begin self scls schema context
   = Ok (schema1, self1))
  /\ (get_is_owned schema scls = false ->
      get_is_owned schema1 scls = true ->
      AlterReferencedInheritingObject_alter_begin self scls schema context
      = (_ ← _validate self1 scls schema1 context; Ok (schema1, self1))
      /\ (get_referrer_context (cmd_class self1) context = Ok None ->
          AlterReferencedInheritingObject_alter_begin self scls schema context
          = Raise (RuntimeError
              ("no referrer context for " +:+ repr_cls (cmd_class self1))))).
Proof.
  intros Hsuper. unfold AlterReferencedInheritingObject_alter_begin.
  rewrite Hsuper. cbn [mbind Result_bind]. split.
  - intros [-> | ->]; [done|]. by rewrite andb_false_r.
  - intros -> ->. cbn [negb andb]. split; [done|].
    intros Hnone. unfold _validate, get_referrer_context_or_die. by rewrite Hnone.
Qed.

(** ** Ingestion of a create *)

(** X16: [CreateReferencedObject._cmd_tree_from_ast] leaves the command of
    the generic method alone for an AST node that is not the referenced
    one.  For the referenced node it needs a referrer context (RuntimeError
    without one), marks the command owned, points it back at the referrer
    by a shell of the referrer command's name and class, marks it abstract
    when the node is, and leaves every other attribute, the name and the
    nested commands as they are. *)
Theorem create_cmd_tree_from_ast_owned (cls : CmdClass) (schema : Schema)
  (astnode : AstNode) (context : CommandContext) (cmd : Command) :
  super_cmd_tree_from_ast cls schema astnode context = Ok cmd ->
  (is_referenced_astnode cls astnode = false ->
   CreateReferencedObject_cmd_tree_from_ast cls schema astnode context = Ok cmd)
  /\ (is_referenced_astnode cls astnode = true ->
      (get_referrer_context cls context = Ok None ->
       CreateReferencedObject_cmd_tree_from_ast cls schema astnode context
       = Raise (RuntimeError ("no referrer context for " +:+ repr_cls cls)))
      /\ forall referrer_ctx,
           get_referrer_context cls context = Ok (Some referrer_ctx) ->
           let backref :=
             rd_backref_attr
               (get_refdict_for_class (get_schema_metaclass (f_op referrer_ctx))
                  (cc_mcls cls)) in
           exists cmd',
             CreateReferencedObject_cmd_tree_from_ast cls schema astnode context = Ok cmd'
             /\ get_attribute_value cmd' "is_owned" = Some (VBool true)
             /\ (backref <> "is_owned" -> backref <> "is_abstract" ->
                 get_attribute_value cmd' backref
                 = Some (VShell (classname (f_op referrer_ctx))
                           (get_schema_metaclass (f_op referrer_ctx))))
             /\ (ast_is_abstract astnode = true ->
                 get_attribute_value cmd' "is_abstract" = Some (VBool true))
             /\ (forall k, k <> backref -> k <> "is_owned" -> k <> "is_abstract" ->
                   get_attribute_value cmd' k = get_attribute_value cmd k)
             /\ classname cmd' = classname cmd
             /\ cmd_class cmd' = cmd_class cmd
             /\ ops cmd' = ops cmd).
Proof.
  intros Hsuper. unfold CreateReferencedObject_cmd_tree_from_ast.
  rewrite Hsuper. cbn [mbind Result_bind]. split; [by intros ->|].
  intros ->. unfold get_referrer_context_or_die. split; [by intros ->|].
  intros referrer_ctx ->. cbn [mbind Result_bind].
  set (backref := rd_backref_attr _).
  eexists. split; [reflexivity|].
  unfold get_attribute_value.
  destruct (ast_is_abstract astnode); simpl.
  - split; [by rewrite lookup_insert_ne, lookup_insert_eq|].
    split; [intros H1 H2; by rewrite !lookup_insert_ne, lookup_insert_eq by done|].
    split; [intros _; by rewrite lookup_insert_eq|].
    split; [intros k H1 H2 H3; by rewrite !lookup_insert_ne by done|]. done.
  - split; [by rewrite lookup_insert_eq|].
    split; [intros H1 H2; by rewrite lookup_insert_ne, lookup_insert_eq by done|].
    split; [done|].
    split; [intros k H1 H2 H3; by rewrite !lookup_insert_ne by done|]. done.
Qed.

(** ** Verbose names *)

Lemma chain_verbosenames_cons (schema : Schema) (o r : Obj) (chain : list Obj)
  (closed : bool) :
  join " of " (chain_verbosenames schema (o :: r :: chain) closed)
  = super_get_verbosename schema o false +:+ " of "
      +:+ join " of " (chain_verbosenames schema (r :: chain) closed).
Proof.
  change (chain_verbosenames schema (o :: r :: chain) closed)
    with (super_get_verbosename schema o false
            :: chain_verbosenames schema (r :: chain) closed).
  by destruct chain.
Qed.

(** X17: the verbose name of a referenced object with its parents is the
    framework's names along the chain of its subjects, joined by " of ":
    the names of the referenced objects without parents, and, when the chain
    ends at an object of another class, that object's name with its own
    parents.  Without [with_parent] it is the framework's name. *)
Theorem get_verbosename_chain (schema : Schema) (o : Obj) (chain : list Obj)
  (closed : bool) :
  referrer_walk schema o chain closed ->
  issubclass_obj (type_of schema o) "ReferencedObject" = true ->
  forall fuel,
    length chain <= fuel ->
    ReferencedObject_get_verbosename fuel schema o true
      = Some (join " of " (chain_verbosenames schema chain closed))
    /\ ReferencedObject_get_verbosename fuel schema o false
       = Some (super_get_verbosename schema o false).
Proof.
  induction 1 as [o Htop|o Href Hnone|o r chain closed Href Hr Hwalk IH];
    intros Hreferenced [|fuel] Hfuel; simpl in Hfuel; try lia.
  - congruence.
  - split; [|done]. simpl. unfold get_referrer in Hnone. by rewrite Hnone.
  - split; [|done].
    pose proof (referrer_walk_head _ _ _ _ Hwalk) as Hchain.
    destruct chain as [|r' chain']; [done|]. injection Hchain as ->.
    rewrite chain_verbosenames_cons.
    cbn [ReferencedObject_get_verbosename]. unfold get_referrer in Hr. rewrite Hr.
    destruct (issubclass_obj (type_of schema r) "ReferencedObject") eqn:Hrref.
    + destruct (IH eq_refl fuel ltac:(simpl in *; lia)) as [-> _]. done.
    + inversion Hwalk; subst; [done|congruence|congruence].
Qed.

(** ** The bases a create ends up with *)

(** X18: when [_create_begin] sets the bases of a create, no base is lost
    and none is doubled: the new bases hold exactly the implicit bases and
    the bases set before, they are free of duplicates when the implicit
    bases and the bases set before are, and no other attribute of the
    command changes. *)
Theorem create_begin_bases_keeps_all (self : Command) (schema : Schema)
  (context : CommandContext) (referrer_ctx : Frame) :
  canonical context = false ->
  issubclass_obj (type_of schema (f_scls referrer_ctx)) "InheritingObject" = true ->
  let refdict :=
    get_refdict_for_class (get_schema_metaclass (f_op referrer_ctx))
      (get_schema_metaclass self) in
  let implicit_bases :=
    _get_implicit_ref_bases (cmd_class self) schema context (f_scls referrer_ctx) (rd_attr refdict)
      (classname self) in
  let previous := objects_of (get_attribute_value self "bases") in
  let self' := _create_begin_bases self (Some referrer_ctx) schema context in
  implicit_bases <> [] ->
  exists bases,
    get_attribute_value self' "bases" = Some (VObjList bases)
    /\ (forall b, b ∈ bases <-> b ∈ implicit_bases \/ b ∈ previous)
    /\ (NoDup implicit_bases -> NoDup previous -> NoDup bases)
    /\ (forall k, k <> "bases" -> get_attribute_value self' k = get_attribute_value self k).
Proof.
  intros Hcanon Hinh refdict implicit_bases previous self' Hne.
  exists (implicit_bases ++ filter (fun b => b ∉ implicit_bases) previous).
  assert (Hself' :
    self' = set_attribute_value self "bases"
              (VObjList (implicit_bases
                           ++ filter (fun b => b ∉ implicit_bases) previous))).
  { unfold self', _create_begin_bases. rewrite Hcanon. cbn [negb]. rewrite Hinh.
    fold refdict. fold implicit_bases. rewrite bool_decide_eq_false_2 by done.
    cbn [negb]. fold previous.
    destruct (truthy (get_attribute_value self "bases")) eqn:Ht; [done|].
    unfold previous. rewrite (not_truthy_objects_of _ Ht). simpl.
    by rewrite app_nil_r. }
  rewrite Hself'. unfold get_attribute_value, set_attribute_value. simpl.
  split; [by rewrite lookup_insert_eq|]. split; [|split].
  - intros b. rewrite elem_of_app, list_elem_of_filter.
    destruct (decide (b ∈ implicit_bases)); tauto.
  - intros Himp Hprev. apply NoDup_app. split; [done|]. split.
    + intros b Hb Hin. by apply list_elem_of_filter in Hin as [Hnot _].
    + by apply NoDup_filter.
  - intros k Hk. by rewrite lookup_insert_ne.
Qed.

End MoreProperties.

(** * The properties on the small schema *)

(** On the small schema: outside any type command a property command has
    no referrer context; inside [ALTER TYPE A], itself inside
    [ALTER TYPE B], its referrer context is the frame of [A]. *)
Lemma get_referrer_context_innermost_witness :
  referrer_context_class (Env := Demo.env false) Demo.delete_property
    = Some "ObjectTypeCommandContext"
  /\ (get_referrer_context (H := Demo.env false) Demo.delete_property Demo.context0 = Ok None
      /\ exists e,
           get_referrer_context_or_die (H := Demo.env false) Demo.delete_property Demo.context0
             = Raise e
           /\ exc_class e = "RuntimeError")
  /\ (exists f,
        get_referrer_context_or_die (H := Demo.env false) Demo.delete_property
          (Demo.in_type (Demo.schema0 true) Demo.T_A
             (Demo.in_type (Demo.schema0 true) Demo.T_B Demo.context0)) = Ok f
        /\ f_scls f = Demo.T_A).
Proof.
  destruct (get_referrer_context_innermost (H := Demo.env false) Demo.delete_property
              "ObjectTypeCommandContext" Demo.context0 eq_refl)
    as (Hnone & _ & _).
  destruct (get_referrer_context_innermost (H := Demo.env false) Demo.delete_property
              "ObjectTypeCommandContext"
              (Demo.in_type (Demo.schema0 true) Demo.T_A
                 (Demo.in_type (Demo.schema0 true) Demo.T_B Demo.context0)) eq_refl)
    as (_ & Hsome & _).
  split; [reflexivity|]. split.
  - destruct (Hnone (Forall_nil_2 _)) as [Hget Hdie]. split; [exact Hget|].
    eexists. split; [exact Hdie|reflexivity].
  - eexists. split.
    + refine (proj2 (Hsome [_] _ [] eq_refl eq_refl (Forall_nil_2 _))).
    + reflexivity.
Defined.

(** C8 as stated fails: where [get_referrer_context] returns [None], the
    exception [get_referrer_context_or_die] raises is not an
    [InvariantViolation]. *)
Lemma get_referrer_context_or_die_not_InvariantViolation :
  ~ (forall (E : Env) (cls : CmdClass) (context : CommandContext),
       get_referrer_context (H := E) cls context = Ok None ->
       exists e,
         get_referrer_context_or_die (H := E) cls context = Raise e
         /\ exc_class e = "InvariantViolation").
Proof.
  intros Hclaim.
  destruct (Hclaim (Demo.env false) Demo.delete_property Demo.context0 eq_refl)
    as (e & Hraise & Hclass).
  vm_compute in Hraise. injection Hraise as <-. discriminate Hclass.
Qed.

(** On the small schema: [CREATE PROPERTY p] in [B], whose base [A] has a
    [p], gets the bases [A.p] and then its explicit base. *)
Lemma create_begin_sets_implicit_bases_witness :
  get_referrer_context (H := Demo.env false) (cmd_class Demo.create_p_in_B)
    (Demo.in_type (Demo.schema0 true) Demo.T_B Demo.context0)
    = Ok (Some (Demo.type_frame (Demo.schema0 true) Demo.T_B))
  /\ canonical (Demo.in_type (Demo.schema0 true) Demo.T_B Demo.context0) = false
  /\ get_attribute_value
       (_create_begin_bases (H := Demo.env false) Demo.create_p_in_B
          (Some (Demo.type_frame (Demo.schema0 true) Demo.T_B))
          (Demo.schema0 true)
          (Demo.in_type (Demo.schema0 true) Demo.T_B Demo.context0))
       "bases"
     = Some (VObjList [Demo.p_A; Demo.p_generic]).
Proof.
  split; [reflexivity|]. split; [reflexivity|].
  destruct (create_begin_sets_implicit_bases (H := Demo.env false) Demo.create_p_in_B
              (Demo.schema0 true)
              (Demo.in_type (Demo.schema0 true) Demo.T_B Demo.context0)
              (Demo.type_frame (Demo.schema0 true) Demo.T_B)
              eq_refl eq_refl eq_refl)
    as (_ & Hbases & _ & _).
  rewrite Hbases; [reflexivity|]. vm_compute. discriminate.
Defined.

(** On the small schema, with a RefDict that requires [overloaded]: the
    owned [B.p], which has the base [A.p], declared without [overloaded]. *)
Lemma validate_overloaded_witness :
  get_referrer_context_or_die (H := Demo.env true)
    (cmd_class (Demo.on_property (Demo.schema0 true) Demo.p_B CreateObject))
    (Demo.in_type (Demo.schema0 true) Demo.T_B Demo.declarative0)
    = Ok (Demo.type_frame (Demo.schema0 true) Demo.T_B)
  /\ declarative (Demo.in_type (Demo.schema0 true) Demo.T_B Demo.declarative0) = true
  /\ get_is_owned (Demo.schema0 true) Demo.p_B = true
  /\ _validate (H := Demo.env true)
       (Demo.on_property (Demo.schema0 true) Demo.p_B CreateObject) Demo.p_B
       (Demo.schema0 true)
       (Demo.in_type (Demo.schema0 true) Demo.T_B Demo.declarative0)
     = Raise (SchemaDefinitionError
         ("'default::p@default::B' must be declared using the `overloaded` keyword "
            +:+ "because it is defined in the following ancestor(s): default::A")
         None).
Proof.
  split; [reflexivity|]. split; [reflexivity|]. split; [reflexivity|].
  destruct (validate_overloaded (H := Demo.env true)
              (Demo.on_property (Demo.schema0 true) Demo.p_B CreateObject) Demo.p_B
              (Demo.schema0 true)
              (Demo.in_type (Demo.schema0 true) Demo.T_B Demo.declarative0)
              (Demo.type_frame (Demo.schema0 true) Demo.T_B)
              eq_refl eq_refl eq_refl)
    as (Hmust & _ & _).
  - vm_compute. repeat constructor. by eexists.
  - rewrite Hmust; [reflexivity|vm_compute; discriminate|reflexivity|reflexivity].
Defined.

(** On the small schema: the bases of [B.p] are [A.p] and the default
    base [std::property]; an implicit rebase onto [A.p] removes the
    default base. *)
Example implicit_base_delta_removes_std_property :
  get_ref_implicit_base_delta (H := Demo.env false) (Demo.schema0 true) Demo.context0
    Demo.p_B [Demo.p_A]
  = ([mkName "std" "property"], []).
Proof. reflexivity. Qed.

(** On the small schema: [DROP PROPERTY p] in [B], where [p] is inherited
    from [A], is refused; in [A], where nothing is inherited, it goes on to
    the children of [A]. *)
Lemma delete_ref_inherited_witness :
  issubclass_obj (Env := Demo.env false) (type_of (Demo.schema0 true) Demo.T_B)
    "InheritingObject" = true
  /\ canonical (Demo.in_type (Demo.schema0 true) Demo.T_B Demo.context0) = false
  /\ in_deletion (Env := Demo.env false)
       (Demo.in_type (Demo.schema0 true) Demo.T_B Demo.context0) 1 = false
  /\ disable_dep_verification (Demo.in_type (Demo.schema0 true) Demo.T_B Demo.context0)
     = false
  /\ _delete_ref (H := Demo.env false)
       (Demo.on_property (Demo.schema0 true) Demo.p_B DeleteObject) Demo.p_B
       (Demo.schema0 true) (Demo.in_type (Demo.schema0 true) Demo.T_B Demo.context0)
       Demo.T_B
     = Raise (SchemaError
         "cannot drop inherited 'default::p@default::B'"
         (Some ("'default::p@default::B' is inherited from:" +:+ nl
                  +:+ "- 'default::A'")))
  /\ exists schema1 self1,
       _delete_ref (H := Demo.env false)
         (Demo.on_property (Demo.schema0 true) Demo.p_A DeleteObject) Demo.p_A
         (Demo.schema0 true) (Demo.in_type (Demo.schema0 true) Demo.T_A Demo.context0)
         Demo.T_A
       = Ok (schema1, self1).
Proof.
  split; [reflexivity|]. split; [reflexivity|]. split; [reflexivity|].
  split; [reflexivity|]. split.
  - destruct (delete_ref_inherited (H := Demo.env false)
                (Demo.on_property (Demo.schema0 true) Demo.p_B DeleteObject) Demo.p_B
                (Demo.schema0 true)
                (Demo.in_type (Demo.schema0 true) Demo.T_B Demo.context0) Demo.T_B
                eq_refl eq_refl eq_refl eq_refl)
      as (_ & Hraise & _).
    rewrite (Hraise ltac:(vm_compute; discriminate) [Demo.T_A]); [reflexivity|].
    vm_compute. repeat constructor.
  - destruct (delete_ref_inherited (H := Demo.env false)
                (Demo.on_property (Demo.schema0 true) Demo.p_A DeleteObject) Demo.p_A
                (Demo.schema0 true)
                (Demo.in_type (Demo.schema0 true) Demo.T_A Demo.context0) Demo.T_A
                eq_refl eq_refl eq_refl eq_refl)
      as (_ & _ & Hgo).
    rewrite (Hgo eq_refl). vm_compute. eauto.
Defined.

(** On the small schema: the same [DROP PROPERTY p] in [B] raises nothing
    in a context built as [ReferencedObject.delete] builds it. *)
Example delete_ref_inherited_unverified :
  exists schema1 self1,
    _delete_ref (H := Demo.env false)
      (Demo.on_property (Demo.schema0 true) Demo.p_B DeleteObject) Demo.p_B
      (Demo.schema0 true)
      (Demo.in_type (Demo.schema0 true) Demo.T_B
         (delete_context (Demo.schema0 true)))
      Demo.T_B
    = Ok (schema1, self1).
Proof. vm_compute. eauto. Qed.

(** On the small schema: the rename of [B.p] alone is refused, since
    [A.p] is not being renamed; the rename of [A.p] is propagated to [B.p]
    and [C.p]. *)
Lemma rename_inherited_witness :
  canonical (Demo.in_type (Demo.schema0 true) Demo.T_B Demo.context0) = false
  /\ generic (Env := Demo.env false) (Demo.schema0 true) Demo.p_B = false
  /\ _rename_begin (H := Demo.env false)
       (Demo.on_property (Demo.schema0 true) Demo.p_B RenameObject) Demo.p_B
       (Demo.schema0 true) (Demo.in_type (Demo.schema0 true) Demo.T_B Demo.context0)
     = Raise (SchemaDefinitionError
         "cannot rename inherited 'default::p@default::B'"
         (Some ("'default::p@default::B' is inherited from 'default::p@default::A', "
                  +:+ "which is not being renamed")))
  /\ _rename_begin (H := Demo.env false)
       (Demo.on_property (Demo.schema0 true) Demo.p_A RenameObject) Demo.p_A
       (Demo.schema0 true) (Demo.in_type (Demo.schema0 true) Demo.T_A Demo.context0)
     = Ok (Demo.schema0 true,
           add_all (Demo.on_property (Demo.schema0 true) Demo.p_A RenameObject)
             [propagated_rename (H := Demo.env false) (Demo.schema0 true)
                (Demo.in_type (Demo.schema0 true) Demo.T_A Demo.context0)
                Demo.p_A "p" Demo.p_B Demo.T_B;
              propagated_rename (H := Demo.env false) (Demo.schema0 true)
                (Demo.in_type (Demo.schema0 true) Demo.T_A Demo.context0)
                Demo.p_A "p" Demo.p_C Demo.T_C]).
Proof.
  split; [reflexivity|]. split; [reflexivity|]. split.
  - destruct (rename_inherited (H := Demo.env false)
                (Demo.on_property (Demo.schema0 true) Demo.p_B RenameObject) Demo.p_B
                (Demo.schema0 true)
                (Demo.in_type (Demo.schema0 true) Demo.T_B Demo.context0)
                (Demo.schema0 true)
                (Demo.on_property (Demo.schema0 true) Demo.p_B RenameObject)
                eq_refl eq_refl eq_refl)
      as (_ & Hraise & _).
    rewrite Hraise; [reflexivity|].
    exists Demo.p_A. split; [vm_compute; repeat constructor|].
    change (Demo.p_A ∉ (∅ : gset positive)). apply not_elem_of_empty.
  - destruct (rename_inherited (H := Demo.env false)
                (Demo.on_property (Demo.schema0 true) Demo.p_A RenameObject) Demo.p_A
                (Demo.schema0 true)
                (Demo.in_type (Demo.schema0 true) Demo.T_A Demo.context0)
                (Demo.schema0 true)
                (Demo.on_property (Demo.schema0 true) Demo.p_A RenameObject)
                eq_refl eq_refl eq_refl)
      as (_ & _ & Hok).
    refine (proj2 (Hok _) eq_refl (Demo.type_frame (Demo.schema0 true) Demo.T_A)
              [Demo.T_B; Demo.T_C] eq_refl _).
    + intros b Hb. vm_compute in Hb. by apply elem_of_nil in Hb.
    + vm_compute. repeat constructor.
Defined.

(** C5 as stated fails: the rename of [B.p] that the rename of [A.p]
    propagated is not canonical, [B.p] is not generic, its one implicit
    base [A.p] is being renamed, and [B.p] has the descendant [C.p]; yet
    it succeeds with no command added, because it runs under the frame
    marked [ref_op_propagated]. *)
Lemma rename_under_propagated_frame_adds_nothing :
  canonical (Demo.propagated_to_p_B (Demo.schema0 true)) = false
  /\ generic (Env := Demo.env false) (Demo.schema0 true) Demo.p_B = false
  /\ get_implicit_bases (H := Demo.env false) (Demo.schema0 true) Demo.p_B = [Demo.p_A]
  /\ Demo.p_A ∈ renamed_objs (Demo.propagated_to_p_B (Demo.schema0 true))
  /\ ordered_descendants (Env := Demo.env false) (Demo.schema0 true) Demo.p_B = [Demo.p_C]
  /\ _rename_begin (H := Demo.env false)
       (Demo.on_property (Demo.schema0 true) Demo.p_B RenameObject) Demo.p_B
       (Demo.schema0 true) (Demo.propagated_to_p_B (Demo.schema0 true))
     = Ok (Demo.schema0 true, Demo.on_property (Demo.schema0 true) Demo.p_B RenameObject)
  /\ ops (Demo.on_property (Demo.schema0 true) Demo.p_B RenameObject) = [].
Proof.
  split; [reflexivity|]. split; [reflexivity|]. split; [reflexivity|].
  split; [change (Demo.p_A ∈ ({[ Demo.p_A ]} : gset positive)); by apply elem_of_singleton|].
  split; [reflexivity|].
  split; [|reflexivity]. vm_compute. reflexivity.
Qed.

(** On the small schema with sub-refs: [DROP OWNED] of [A.p], which
    inherits from nothing, is refused; [DROP OWNED] of [B.p] un-owns its
    inherited and owned [q] and deletes its [r]. *)
Lemma alter_owned_drop_owned_witness :
  get_is_owned Demo.schema_sub Demo.p_A = true
  /\ get_is_owned (Demo.unowned Demo.p_A) Demo.p_A = false
  /\ canonical (Demo.in_type Demo.schema_sub Demo.T_A Demo.context0) = false
  /\ _alter_begin (H := Demo.env false) (Demo.drop_owned Demo.p_A) Demo.p_A
       Demo.schema_sub (Demo.in_type Demo.schema_sub Demo.T_A Demo.context0)
     = Raise (InvalidDefinitionError
         ("cannot drop owned 'default::p@default::A', as it is not inherited, "
            +:+ "use DROP PROPERTY instead"))
  /\ _alter_begin (H := Demo.env false) (Demo.drop_owned Demo.p_B) Demo.p_B
       Demo.schema_sub (Demo.in_type Demo.schema_sub Demo.T_B Demo.context0)
     = Ok (Demo.unowned Demo.p_B,
           add_all (Demo.drop_owned Demo.p_B)
             [alter_owned_false (Demo.unowned Demo.p_B) Demo.q_B;
              init_delta_command (Demo.unowned Demo.p_B) Demo.r_B DeleteObject]).
Proof.
  split; [reflexivity|]. split; [reflexivity|]. split; [reflexivity|]. split.
  - destruct (alter_owned_drop_owned (H := Demo.env false) (Demo.drop_owned Demo.p_A)
                Demo.p_A Demo.schema_sub
                (Demo.in_type Demo.schema_sub Demo.T_A Demo.context0)
                (Demo.unowned Demo.p_A) (Demo.drop_owned Demo.p_A)
                eq_refl eq_refl eq_refl eq_refl)
      as (Hraise & _).
    rewrite Hraise; reflexivity.
  - destruct (alter_owned_drop_owned (H := Demo.env false) (Demo.drop_owned Demo.p_B)
                Demo.p_B Demo.schema_sub
                (Demo.in_type Demo.schema_sub Demo.T_B Demo.context0)
                (Demo.unowned Demo.p_B) (Demo.drop_owned Demo.p_B)
                eq_refl eq_refl eq_refl eq_refl)
      as (_ & Hgo).
    destruct (Hgo ltac:(vm_compute; discriminate)) as (_ & Hrun).
    apply (Hrun (Demo.unowned Demo.p_B) (Demo.drop_owned Demo.p_B) eq_refl).
    eexists. split; [|reflexivity].
    change (drop_owned_run (H := Demo.env false)
              (Demo.in_type Demo.schema_sub Demo.T_B Demo.context0) Demo.p_B
              (Demo.unowned Demo.p_B)
              [mkRefDict "properties" "source" false]
              ([alter_owned_false (Demo.unowned Demo.p_B) Demo.q_B;
                init_delta_command (Demo.unowned Demo.p_B) Demo.r_B DeleteObject] ++ [])
              (Demo.unowned Demo.p_B)).
    eapply drop_owned_cons; [|constructor].
    change (coll_objects _) with [Demo.q_B; Demo.r_B].
    eapply drop_owned_refs_unown;
      [vm_compute; discriminate|reflexivity|reflexivity|].
    eapply drop_owned_refs_delete; [left; reflexivity|constructor].
Defined.



(** On the small schema: [DROP PROPERTY p] in [A] reaches the owned [B.p];
    the command built for it is an alter of [B.p] holding a second alter
    of [B.p] with the removed bases, and no rebase command. *)
Example propagate_ref_deletion_to_owned_p_B :
  _propagate_ref_deletion (H := Demo.env false)
    (Demo.on_property (Demo.schema0 true) Demo.p_A DeleteObject) Demo.dropped_p_A
    (Demo.in_type Demo.dropped_p_A Demo.T_B Demo.context0)
    (mkRefDict "properties" "source" false) Demo.T_B Demo.p_B
  = Ok (Demo.dropped_p_A,
        add (Demo.on_property Demo.dropped_p_A Demo.p_B AlterObject)
          (set_rebase_fields (Demo.on_property Demo.dropped_p_A Demo.p_B AlterObject)
             false [] [mkName "default" "p@default::A"; mkName "std" "property"])).
Proof. vm_compute. reflexivity. Qed.

(** ** The further properties on the small schema *)

(** On the schema with sub-refs: the alter stack for the referrer [B.p] of
    the sub-ref [q] is the alter of [B] and then the alter of [B.p]. *)
Lemma build_alter_cmd_stack_closed_witness :
  referrer_walk (E := Demo.env false) Demo.schema_sub Demo.p_B [Demo.p_B; Demo.T_B] true
  /\ _build_alter_cmd_stack (E := Demo.env false) 2
       (Demo.on_property Demo.schema_sub Demo.q_B AlterObject) Demo.schema_sub
       Demo.context0 Demo.q_B (Some Demo.p_B)
     = Some (Ok [init_delta_command Demo.schema_sub Demo.T_B AlterObject;
                 init_delta_command Demo.schema_sub Demo.p_B AlterObject]).
Proof.
  assert (Hwalk : referrer_walk (E := Demo.env false) Demo.schema_sub Demo.p_B
                    [Demo.p_B; Demo.T_B] true).
  { apply referrer_walk_step with (r := Demo.T_B); [reflexivity|reflexivity|].
    apply referrer_walk_top. reflexivity. }
  split; [exact Hwalk|].
  destruct (build_alter_cmd_stack_closed (E := Demo.env false) 2
              (Demo.on_property Demo.schema_sub Demo.q_B AlterObject) Demo.schema_sub
              Demo.context0 Demo.q_B Demo.p_B [Demo.p_B; Demo.T_B] Hwalk
              (le_n 2))
    as (Hstack & _ & _).
  exact Hstack.
Defined.

(** On the small schema: the one base of [C.p] is the implicit base [B.p],
    so an implicit rebase of [C.p] onto [B.p] changes nothing. *)
Lemma implicit_base_delta_fixpoint_witness :
  get_bases (Demo.schema0 true) Demo.p_C
    = [Demo.p_B] ++ explicit_bases_of (H := Demo.env false) (Demo.schema0 true) Demo.p_C
  /\ get_ref_implicit_base_delta (H := Demo.env false) (Demo.schema0 true) Demo.context0
       Demo.p_C [Demo.p_B]
     = ([], []).
Proof.
  split; [reflexivity|].
  apply (implicit_base_delta_fixpoint (E := Demo.env false) (Demo.schema0 true)
           Demo.context0 Demo.p_C [Demo.p_B]).
  reflexivity.
Defined.

(** On the small schema: in a canonical context, [DROP PROPERTY p] in [B]
    is not refused although [p] is inherited from [A]; the ref is removed
    from [B] and nothing is added to the command. *)
Lemma canonical_context_suppresses_witness :
  canonical (Demo.in_type (Demo.schema0 true) Demo.T_B Demo.canonical0) = true
  /\ _delete_ref (H := Demo.env false)
       (Demo.on_property (Demo.schema0 true) Demo.p_B DeleteObject) Demo.p_B
       (Demo.schema0 true) (Demo.in_type (Demo.schema0 true) Demo.T_B Demo.canonical0)
       Demo.T_B
     = Ok (Demo.del_ref Demo.T_B (Demo.schema0 true) "properties" "p",
           Demo.on_property (Demo.schema0 true) Demo.p_B DeleteObject).
Proof.
  split; [reflexivity|].
  destruct (canonical_context_suppresses (E := Demo.env false) (F := Demo.framework)
              (Demo.on_property (Demo.schema0 true) Demo.p_B DeleteObject) Demo.p_B
              (Demo.schema0 true)
              (Demo.in_type (Demo.schema0 true) Demo.T_B Demo.canonical0) Demo.T_B
              eq_refl)
    as (_ & _ & Hdelete & _).
  rewrite Hdelete. reflexivity.
Defined.

(** On the small schema: the context in which the rename of [A.p] reaches
    [B.p] counts as propagated, so the rename of [B.p] is not propagated
    again to [C.p]. *)
Lemma propagate_ref_op_stops_witness :
  issubclass_cmd_of (Env := Demo.env false)
    (get_command_class_or_die AlterObject (type_of (Demo.schema0 true) Demo.p_B))
    "ReferencedInheritingObjectCommand" = true
  /\ ref_op_already_propagated (H := Demo.env false)
       (Demo.propagated_to_p_B (Demo.schema0 true)) = true
  /\ _propagate_ref_op (H := Demo.env false)
       (Demo.on_property (Demo.schema0 true) Demo.p_B AlterObject) Demo.p_B
       (Demo.schema0 true) (Demo.propagated_to_p_B (Demo.schema0 true)) Demo.p_B
       (fun _ cmd _ => cmd)
     = Ok (Demo.schema0 true, Demo.on_property (Demo.schema0 true) Demo.p_B AlterObject).
Proof.
  split; [reflexivity|].
  destruct (propagate_ref_op_stops (E := Demo.env false) (Demo.schema0 true)
              Demo.renaming_p_A Demo.p_B Demo.T_B eq_refl)
    as (Hinner & Hstops).
  split; [exact Hinner|].
  destruct (Hstops (Demo.propagated_to_p_B (Demo.schema0 true)) Hinner) as (_ & Hsame).
  apply Hsame.
Defined.

(** On the small schema: the propagation of an operation on [A.p] outside
    any type command raises RuntimeError. *)
Lemma propagate_ref_op_errors_witness :
  ref_op_already_propagated (H := Demo.env false) Demo.context0 = false
  /\ _propagate_ref_op (H := Demo.env false)
       (Demo.on_property (Demo.schema0 true) Demo.p_A AlterObject) Demo.p_A
       (Demo.schema0 true) Demo.context0 Demo.p_A (fun _ cmd _ => cmd)
     = Raise (RuntimeError "no referrer context for <class 'Property'>").
Proof.
  split; [reflexivity|].
  destruct (propagate_ref_op_errors (E := Demo.env false)
              (Demo.on_property (Demo.schema0 true) Demo.p_A AlterObject) Demo.p_A
              (Demo.schema0 true) Demo.context0 Demo.p_A (fun _ cmd _ => cmd) eq_refl)
    as (Hnone & _).
  rewrite Hnone; reflexivity.
Defined.

(** On the small schema: [ALTER PROPERTY p SET OWNED] on the inherited
    [C.p], outside any type command, raises RuntimeError. *)
Lemma alter_begin_revalidates_witness :
  super_alter_begin (Env := Demo.env false)
    (set_attribute_value (Demo.on_property (Demo.schema0 true) Demo.p_C AlterObject)
       "is_owned" (VBool true))
    Demo.p_C (Demo.schema0 true) Demo.context0
    = Ok (alter (Demo.set_is_owned true) Demo.p_C (Demo.schema0 true),
          set_attribute_value (Demo.on_property (Demo.schema0 true) Demo.p_C AlterObject)
            "is_owned" (VBool true))
  /\ AlterReferencedInheritingObject_alter_begin (H := Demo.env false)
       (set_attribute_value (Demo.on_property (Demo.schema0 true) Demo.p_C AlterObject)
          "is_owned" (VBool true))
       Demo.p_C (Demo.schema0 true) Demo.context0
     = Raise (RuntimeError "no referrer context for <class 'Property'>").
Proof.
  split; [reflexivity|].
  destruct (alter_begin_revalidates (E := Demo.env false)
              (set_attribute_value
                 (Demo.on_property (Demo.schema0 true) Demo.p_C AlterObject)
                 "is_owned" (VBool true))
              Demo.p_C (Demo.schema0 true) Demo.context0
              (alter (Demo.set_is_owned true) Demo.p_C (Demo.schema0 true))
              (set_attribute_value
                 (Demo.on_property (Demo.schema0 true) Demo.p_C AlterObject)
                 "is_owned" (VBool true))
              eq_refl)
    as (_ & Hreown).
  destruct (Hreown eq_refl eq_refl) as (_ & Hraise).
  rewrite Hraise; reflexivity.
Defined.

(** On the small schema: the command read from [CREATE PROPERTY p] inside
    [ALTER TYPE B] is owned and points back at [B]. *)
Lemma create_cmd_tree_from_ast_owned_witness :
  super_cmd_tree_from_ast (Framework := Demo.framework)
    (mkCmdClass CreateObject "Property") (Demo.schema0 true)
    (mkAstNode (mkObjectRef "p" None) false false)
    (Demo.in_type (Demo.schema0 true) Demo.T_B Demo.context0)
    = Ok (new_command (mkCmdClass CreateObject "Property") (mkName "default" "p"))
  /\ exists cmd,
       CreateReferencedObject_cmd_tree_from_ast (E := Demo.env false) (F := Demo.framework)
         (mkCmdClass CreateObject "Property") (Demo.schema0 true)
         (mkAstNode (mkObjectRef "p" None) false false)
         (Demo.in_type (Demo.schema0 true) Demo.T_B Demo.context0)
       = Ok cmd
       /\ get_attribute_value cmd "is_owned" = Some (VBool true)
       /\ get_attribute_value cmd "source"
          = Some (VShell (mkName "default" "B") "ObjectType").
Proof.
  split; [reflexivity|].
  destruct (create_cmd_tree_from_ast_owned (E := Demo.env false) (F := Demo.framework)
              (mkCmdClass CreateObject "Property") (Demo.schema0 true)
              (mkAstNode (mkObjectRef "p" None) false false)
              (Demo.in_type (Demo.schema0 true) Demo.T_B Demo.context0)
              (new_command (mkCmdClass CreateObject "Property") (mkName "default" "p"))
              eq_refl)
    as (_ & Hreferenced).
  destruct (Hreferenced eq_refl) as (_ & Hsome).
  destruct (Hsome (Demo.type_frame (Demo.schema0 true) Demo.T_B) eq_refl)
    as (cmd & Hcmd & Howned & Hback & _).
  exists cmd. split; [exact Hcmd|]. split; [exact Howned|].
  apply Hback; vm_compute; discriminate.
Defined.

(** On the schema with sub-refs: the verbose name of the sub-ref [q] of
    [B.p] names [B.p] and [B]. *)
Lemma get_verbosename_chain_witness :
  referrer_walk (E := Demo.env false) Demo.schema_sub Demo.q_B
    [Demo.q_B; Demo.p_B; Demo.T_B] true
  /\ issubclass_obj (Env := Demo.env false) (type_of Demo.schema_sub Demo.q_B)
       "ReferencedObject" = true
  /\ ReferencedObject_get_verbosename (E := Demo.env false) (F := Demo.framework) 3
       Demo.schema_sub Demo.q_B true
     = Some "property 'q' of property 'p' of object type 'B'".
Proof.
  assert (Hwalk : referrer_walk (E := Demo.env false) Demo.schema_sub Demo.q_B
                    [Demo.q_B; Demo.p_B; Demo.T_B] true).
  { apply referrer_walk_step with (r := Demo.p_B); [reflexivity|reflexivity|].
    apply referrer_walk_step with (r := Demo.T_B); [reflexivity|reflexivity|].
    apply referrer_walk_top. reflexivity. }
  split; [exact Hwalk|]. split; [reflexivity|].
  destruct (get_verbosename_chain (E := Demo.env false) (F := Demo.framework)
              Demo.schema_sub Demo.q_B [Demo.q_B; Demo.p_B; Demo.T_B] true Hwalk eq_refl
              3 (le_n 3))
    as (Hname & _).
  rewrite Hname. reflexivity.
Defined.

(** On the small schema: [CREATE PROPERTY p] in [B] keeps its explicit
    base, the generic [p], beside the implicit base [A.p], once each. *)
Lemma create_begin_bases_keeps_all_witness :
  canonical (Demo.in_type (Demo.schema0 true) Demo.T_B Demo.context0) = false
  /\ issubclass_obj (Env := Demo.env false) (type_of (Demo.schema0 true) Demo.T_B)
       "InheritingObject" = true
  /\ _get_implicit_ref_bases (H := Demo.env false) (cmd_class Demo.create_p_in_B)
       (Demo.schema0 true)
       (Demo.in_type (Demo.schema0 true) Demo.T_B Demo.context0) Demo.T_B "properties"
       (classname Demo.create_p_in_B) <> []
  /\ exists bases,
       get_attribute_value
         (_create_begin_bases (H := Demo.env false) Demo.create_p_in_B
            (Some (Demo.type_frame (Demo.schema0 true) Demo.T_B)) (Demo.schema0 true)
            (Demo.in_type (Demo.schema0 true) Demo.T_B Demo.context0))
         "bases" = Some (VObjList bases)
       /\ Demo.p_generic ∈ bases
       /\ Demo.p_A ∈ bases.
Proof.
  assert (Hne : _get_implicit_ref_bases (H := Demo.env false) (cmd_class Demo.create_p_in_B)
       (Demo.schema0 true)
                  (Demo.in_type (Demo.schema0 true) Demo.T_B Demo.context0) Demo.T_B
                  "properties" (classname Demo.create_p_in_B) <> [])
    by (vm_compute; discriminate).
  split; [reflexivity|]. split; [reflexivity|]. split; [exact Hne|].
  destruct (create_begin_bases_keeps_all (E := Demo.env false) Demo.create_p_in_B
              (Demo.schema0 true)
              (Demo.in_type (Demo.schema0 true) Demo.T_B Demo.context0)
              (Demo.type_frame (Demo.schema0 true) Demo.T_B) eq_refl eq_refl Hne)
    as (bases & Hbases & Hin & _ & _).
  exists bases. split; [exact Hbases|]. split.
  - apply Hin. right. vm_compute. apply list_elem_of_here.
  - apply Hin. left. vm_compute. apply list_elem_of_here.
Defined.

(** ** The delete of an inherited ref on the small schema *)

